(** * API keys of the ZenML server: models, schema and command line

    A shallow embedding of
    - [src/zenml/models/api_key_models.py]  (token codec, key verification),
    - [src/zenml/zen_stores/schemas/api_key_schemas.py]  (create, update,
      rotate),
    - [src/zenml/cli/api_key.py]  (the [rotate] command),
    followed by the properties the specification states about them.

    Conventions.
    - A Python [str] is a [string]; every [ascii] is one code point in
      U+0000..U+00FF.  A [bytes] object is a [string] as well, one [ascii]
      per byte.
    - A naive [datetime] is the number of microseconds since the epoch, a
      [timedelta] a number of microseconds, both in [Z].
    - A Python call that can raise returns a [result]; [Raise] carries the
      exception class and its message. *)

From Stdlib Require Import String Ascii List ZArith NArith Bool Lia.
From Stdlib Require Import DecimalString.
Import ListNotations.

Local Open Scope string_scope.
Local Open Scope Z_scope.

(** ** Exceptions and fallible calls *)

Inductive exn : Type :=
| ValueError (msg : string)
| KeyError (msg : string)
| UnknownHashError (msg : string)      (* passlib.exc, a ValueError *)
| BinasciiError (msg : string)         (* binascii.Error, a ValueError *)
| UnicodeDecodeError (msg : string)
| JSONDecodeError (msg : string)
| ValidationError (msg : string)       (* pydantic *)
| ClickException (msg : string).

Inductive result (A : Type) : Type :=
| Ok (a : A)
| Raise (e : exn).

Arguments Ok {A} a.
Arguments Raise {A} e.

Definition bind {A B : Type} (c : result A) (k : A -> result B) : result B :=
  match c with
  | Ok a => k a
  | Raise e => Raise e
  end.

Notation "x <- c ;; k" := (bind c (fun x => k))
  (at level 61, c at next level, right associativity).

(** [try: c except Exception: raise e] *)
Definition try_except_raise {A : Type} (c : result A) (e : exn) : result A :=
  match c with
  | Ok a => Ok a
  | Raise _ => Raise e
  end.

Definition is_raise {A : Type} (c : result A) : bool :=
  match c with Ok _ => false | Raise _ => true end.

(** ** Time *)

Definition datetime := Z.
Definition timedelta := Z.

(** [timedelta(minutes=m)] *)
Definition timedelta_minutes (m : Z) : timedelta := m * 60000000.

(** [timedelta(minutes=m)] exists only while its whole days stay within
    [-999999999, 999999999]; outside that range the constructor raises
    [OverflowError], and [timedelta_minutes] is its value inside it. *)
Definition timedelta_representable (m : Z) : Prop :=
  -999999999 <= m / 1440 <= 999999999.

(** The host clock: the current instant on the UTC time line and the offset
    of the host's local time zone from UTC.  [datetime.utcnow()] and
    [datetime.now()] both return naive values. *)
Record Clock : Type := mkClock {
  instant : Z;
  utcoffset : Z
}.

Definition datetime_utcnow (c : Clock) : datetime := instant c.
Definition datetime_now (c : Clock) : datetime := instant c + utcoffset c.

(** ** Python truthiness of optional values *)

Definition truthy_str (o : option string) : bool :=
  match o with
  | Some s => negb (String.eqb s EmptyString)
  | None => false
  end.

(** ** Identifiers *)

(** A [uuid.UUID]: 128 bits, as sixteen bytes. *)
Record UUID : Type := mkUUID {
  u0 : ascii; u1 : ascii; u2 : ascii; u3 : ascii;
  u4 : ascii; u5 : ascii; u6 : ascii; u7 : ascii;
  u8 : ascii; u9 : ascii; u10 : ascii; u11 : ascii;
  u12 : ascii; u13 : ascii; u14 : ascii; u15 : ascii
}.

(** ** The password hashing context

    [CryptContext(schemes=["bcrypt"], deprecated="auto")] of passlib.  The
    bcrypt handler itself (its digest and its salted [hash]) is kept
    abstract; what the context adds around the handler is written out:
    [verify] answers [False] for a [None] hash, and raises [UnknownHashError]
    for a hash string that no configured scheme identifies. *)

(** [bcrypt.identify]: the hash starts with one of the scheme's idents. *)
Definition bcrypt_ident_values : list string :=
  ["$2$"; "$2a$"; "$2x$"; "$2y$"; "$2b$"].

Definition bcrypt_identify (hash : string) : bool :=
  existsb (fun ident => String.prefix ident hash) bcrypt_ident_values.

Record Handler : Type := mkHandler {
  (** [handler.verify(secret, hash)] for an identified hash; it can raise
      on a malformed hash body. *)
  handler_verify : string -> string -> result bool;
  (** [handler.hash(secret)], the salt drawn by the call made explicit. *)
  handler_hash : string -> string -> string
}.

Definition unknown_hash : exn :=
  UnknownHashError "hash could not be identified".

Definition CryptContext_verify (h : Handler) (secret : string)
    (hash : option string) : result bool :=
  match hash with
  | None => Ok false
  | Some hash =>
      if bcrypt_identify hash then handler_verify h secret hash
      else Raise unknown_hash
  end.

Definition CryptContext_hash (h : Handler) (salt secret : string) : string :=
  handler_hash h salt secret.

(** ** Text helpers *)

Local Open Scope N_scope.

Definition code (c : ascii) : N := N_of_ascii c.
Definition chr (n : N) : ascii := ascii_of_N n.

Fixpoint string_forallb (p : ascii -> bool) (s : string) : bool :=
  match s with
  | EmptyString => true
  | String c s' => p c && string_forallb p s'
  end.

Fixpoint string_filter (p : ascii -> bool) (s : string) : string :=
  match s with
  | EmptyString => EmptyString
  | String c s' => if p c then String c (string_filter p s') else string_filter p s'
  end.

Definition is_ascii (c : ascii) : bool := code c <? 128.

(** *** Hexadecimal digits *)

(** The lowercase digit of a value below sixteen, as [format(v, "x")]. *)
Definition hex_digit (v : N) : ascii :=
  if v <? 10 then chr (48 + v) else chr (87 + v).

(** The value of a hexadecimal digit of either case, as [int(c, 16)]. *)
Definition hex_value (c : ascii) : option N :=
  let n := code c in
  if (48 <=? n) && (n <=? 57) then Some (n - 48)
  else if (97 <=? n) && (n <=? 102) then Some (n - 87)
  else if (65 <=? n) && (n <=? 70) then Some (n - 55)
  else None.

(** Two digits for one byte. *)
Definition hex2 (b : ascii) : string :=
  String (hex_digit (code b / 16)) (String (hex_digit (code b mod 16)) EmptyString).

(** Pairs of digits back to bytes; [None] on an odd length or a character
    that is no digit. *)
Fixpoint unhex (s : string) : option (list ascii) :=
  match s with
  | EmptyString => Some []
  | String c1 (String c2 s') =>
      match hex_value c1, hex_value c2, unhex s' with
      | Some h, Some l, Some bs => Some (chr (h * 16 + l) :: bs)
      | _, _, _ => None
      end
  | String _ EmptyString => None
  end.

(** *** The text form of a UUID *)

(** [str(uuid)]: 8-4-4-4-12 lowercase digits. *)
Definition UUID_str (u : UUID) : string :=
  hex2 (u0 u) ++ hex2 (u1 u) ++ hex2 (u2 u) ++ hex2 (u3 u) ++ "-" ++
  hex2 (u4 u) ++ hex2 (u5 u) ++ "-" ++
  hex2 (u6 u) ++ hex2 (u7 u) ++ "-" ++
  hex2 (u8 u) ++ hex2 (u9 u) ++ "-" ++
  hex2 (u10 u) ++ hex2 (u11 u) ++ hex2 (u12 u) ++ hex2 (u13 u) ++
  hex2 (u14 u) ++ hex2 (u15 u).

Definition not_hyphen (c : ascii) : bool := negb (Ascii.eqb c "-").

(** [UUID(hex)]: the hyphens are dropped, thirty-two digits must remain.
    (Python also takes a [urn:uuid:] prefix and surrounding braces; those
    forms are refused here.) *)
Definition UUID_parse (hex : string) : result UUID :=
  match unhex (string_filter not_hyphen hex) with
  | Some [b0; b1; b2; b3; b4; b5; b6; b7; b8; b9; b10; b11; b12; b13; b14; b15] =>
      Ok (mkUUID b0 b1 b2 b3 b4 b5 b6 b7 b8 b9 b10 b11 b12 b13 b14 b15)
  | _ => Raise (ValueError "badly formed hexadecimal UUID string")
  end.

(** *** UTF-8 *)

(** [str.encode()]: one byte below U+0080, two bytes up to U+00FF. *)
Fixpoint str_encode (s : string) : string :=
  match s with
  | EmptyString => EmptyString
  | String c s' =>
      if is_ascii c then String c (str_encode s')
      else String (chr (192 + code c / 64))
             (String (chr (128 + code c mod 64)) (str_encode s'))
  end.

(** [bytes.decode()]: raises on a malformed sequence.  A sequence for a code
    point above U+00FF has no value in this model of [str] and is refused
    with the same exception. *)
Fixpoint bytes_decode (b : string) : result string :=
  match b with
  | EmptyString => Ok EmptyString
  | String c b' =>
      if is_ascii c then
        s <- bytes_decode b' ;; Ok (String c s)
      else
        match b' with
        | String d b'' =>
            if ((code c =? 194) || (code c =? 195)) && (128 <=? code d) && (code d <? 192)
            then s <- bytes_decode b'' ;;
                 Ok (String (chr ((code c - 192) * 64 + (code d - 128))) s)
            else Raise (UnicodeDecodeError "invalid start or continuation byte")
        | EmptyString => Raise (UnicodeDecodeError "unexpected end of data")
        end
  end.

(** *** Base64 (RFC 4648, standard alphabet) *)

Definition b64_alphabet : string :=
  "ABCDEFGHIJKLMNOPQRSTUVWXYZabcdefghijklmnopqrstuvwxyz0123456789+/".

Definition b64_pad : ascii := "=".

Definition b64_char (v : N) : ascii :=
  match String.get (N.to_nat v) b64_alphabet with
  | Some c => c
  | None => b64_pad
  end.

Definition b64_value (c : ascii) : option N :=
  let n := code c in
  if (65 <=? n) && (n <=? 90) then Some (n - 65)
  else if (97 <=? n) && (n <=? 122) then Some (n - 71)
  else if (48 <=? n) && (n <=? 57) then Some (n + 4)
  else if n =? 43 then Some 62
  else if n =? 47 then Some 63
  else None.

Definition is_b64_char (c : ascii) : bool :=
  match b64_value c with
  | Some _ => true
  | None => Ascii.eqb c b64_pad
  end.

(** What decoding relies on for the character of one six-bit value: it
    maps back to the value, is not the pad and is ASCII. *)
Definition sextet_ok (v : N) : bool :=
  match b64_value (b64_char v) with
  | Some w => N.eqb w v
  | None => false
  end
  && negb (Ascii.eqb (b64_char v) b64_pad)
  && is_ascii (b64_char v).

(** [base64.b64encode]: three bytes become four characters; a last group of
    one or two bytes is padded. *)
Fixpoint b64encode (bs : string) : string :=
  match bs with
  | EmptyString => EmptyString
  | String a EmptyString =>
      String (b64_char (code a / 4))
        (String (b64_char (code a mod 4 * 16))
           (String b64_pad (String b64_pad EmptyString)))
  | String a (String b EmptyString) =>
      String (b64_char (code a / 4))
        (String (b64_char (code a mod 4 * 16 + code b / 16))
           (String (b64_char (code b mod 16 * 4))
              (String b64_pad EmptyString)))
  | String a (String b (String c rest)) =>
      String (b64_char (code a / 4))
        (String (b64_char (code a mod 4 * 16 + code b / 16))
           (String (b64_char (code b mod 16 * 4 + code c / 64))
              (String (b64_char (code c mod 64)) (b64encode rest))))
  end.

Definition incorrect_padding : exn := BinasciiError "Incorrect padding".

(** Groups of four characters back to bytes. *)
Fixpoint b64decode_groups (s : string) : result string :=
  match s with
  | EmptyString => Ok EmptyString
  | String c1 (String c2 (String c3 (String c4 rest))) =>
      if Ascii.eqb c4 b64_pad then
        match rest with
        | EmptyString =>
            if Ascii.eqb c3 b64_pad then
              match b64_value c1, b64_value c2 with
              | Some v1, Some v2 =>
                  Ok (String (chr (v1 * 4 + v2 / 16)) EmptyString)
              | _, _ => Raise incorrect_padding
              end
            else
              match b64_value c1, b64_value c2, b64_value c3 with
              | Some v1, Some v2, Some v3 =>
                  Ok (String (chr (v1 * 4 + v2 / 16))
                        (String (chr (v2 mod 16 * 16 + v3 / 4)) EmptyString))
              | _, _, _ => Raise incorrect_padding
              end
        | String _ _ => Raise incorrect_padding
        end
      else
        match b64_value c1, b64_value c2, b64_value c3, b64_value c4 with
        | Some v1, Some v2, Some v3, Some v4 =>
            r <- b64decode_groups rest ;;
            Ok (String (chr (v1 * 4 + v2 / 16))
                  (String (chr (v2 mod 16 * 16 + v3 / 4))
                     (String (chr (v3 mod 4 * 64 + v4)) r)))
        | _, _, _, _ => Raise incorrect_padding
        end
  | _ => Raise incorrect_padding
  end.

(** [base64.b64decode] without validation: characters outside the alphabet
    are discarded before the groups are decoded. *)
Definition b64decode (s : string) : result string :=
  b64decode_groups (string_filter is_b64_char s).

(** *** [zenml.utils.string_utils] *)

(** Modelled from the spec: [b64_encode] of [zenml.utils.string_utils] is
    not among the sources; the token is the base64 text of the UTF-8 bytes
    of the payload ([base64.b64encode(input_.encode()).decode()]). *)
Definition b64_encode (input_ : string) : result string :=
  bytes_decode (b64encode (str_encode input_)).

(** Modelled from the spec: [b64_decode] of [zenml.utils.string_utils] is
    not among the sources; it is the inverse path
    ([base64.b64decode(input_.encode()).decode()]). *)
Definition b64_decode (input_ : string) : result string :=
  decoded_bytes <- b64decode (str_encode input_) ;;
  bytes_decode decoded_bytes.

(** *** JSON text *)

Definition dquote : ascii := "034"%char.
Definition backslash : ascii := "092"%char.

Definition quoted (body : string) : string :=
  String dquote (body ++ String dquote EmptyString).

(** One character of a string literal as [json.dumps] writes it (with
    [ensure_ascii]): short escapes, printable ASCII as it is, everything
    else as a four-digit escape. *)
Definition json_escape_char (c : ascii) : string :=
  let n := code c in
  if n =? 34 then String backslash (String dquote EmptyString)
  else if n =? 92 then String backslash (String backslash EmptyString)
  else if n =? 10 then String backslash "n"
  else if n =? 13 then String backslash "r"
  else if n =? 9 then String backslash "t"
  else if n =? 8 then String backslash "b"
  else if n =? 12 then String backslash "f"
  else if (32 <=? n) && (n <=? 126) then String c EmptyString
  else String backslash ("u00" ++ hex2 c).

Fixpoint json_escape (s : string) : string :=
  match s with
  | EmptyString => EmptyString
  | String c s' => json_escape_char c ++ json_escape s'
  end.

Definition json_dumps_str (s : string) : string := quoted (json_escape s).

Definition is_ws (c : ascii) : bool :=
  let n := code c in (n =? 32) || (n =? 9) || (n =? 10) || (n =? 13).

Fixpoint skip_ws (s : string) : string :=
  match s with
  | EmptyString => EmptyString
  | String c s' => if is_ws c then skip_ws s' else s
  end.

(** The character a short escape stands for. *)
Definition json_unescape (e : ascii) : option ascii :=
  let n := code e in
  if n =? 34 then Some dquote
  else if n =? 92 then Some backslash
  else if n =? 47 then Some "/"%char
  else if n =? 98 then Some (chr 8)
  else if n =? 102 then Some (chr 12)
  else if n =? 110 then Some (chr 10)
  else if n =? 114 then Some (chr 13)
  else if n =? 116 then Some (chr 9)
  else None.

Definition hex4_value (h1 h2 h3 h4 : ascii) : option N :=
  match hex_value h1, hex_value h2, hex_value h3, hex_value h4 with
  | Some a, Some b, Some c, Some d => Some (((a * 16 + b) * 16 + c) * 16 + d)
  | _, _, _, _ => None
  end.

(** The body of a string literal, read from just after the opening quote
    up to the closing one; the result is the text and the input that
    follows.  An escape for a code point above U+00FF has no value in this
    model of [str] and is refused. *)
Fixpoint scanstring (s : string) : result (string * string) :=
  match s with
  | EmptyString => Raise (JSONDecodeError "Unterminated string starting at")
  | String c s1 =>
      if Ascii.eqb c dquote then Ok (EmptyString, s1)
      else if Ascii.eqb c backslash then
        match s1 with
        | EmptyString => Raise (JSONDecodeError "Unterminated string starting at")
        | String e s2 =>
            if Ascii.eqb e "u" then
              match s2 with
              | String h1 (String h2 (String h3 (String h4 s3))) =>
                  match hex4_value h1 h2 h3 h4 with
                  | Some v =>
                      if v <? 256 then
                        r <- scanstring s3 ;;
                        Ok (String (chr v) (fst r), snd r)
                      else Raise (JSONDecodeError "escape above U+00FF")
                  | None => Raise (JSONDecodeError "Invalid \uXXXX escape")
                  end
              | _ => Raise (JSONDecodeError "Invalid \uXXXX escape")
              end
            else
              match json_unescape e with
              | Some ch => r <- scanstring s2 ;; Ok (String ch (fst r), snd r)
              | None => Raise (JSONDecodeError "Invalid \escape")
              end
        end
      else if code c <? 32 then
        Raise (JSONDecodeError "Invalid control character at")
      else r <- scanstring s1 ;; Ok (String c (fst r), snd r)
  end.

(** The members of an object, read from the first member name on.  The
    values of this model are string literals; any other value is refused.
    [fuel] bounds the number of members. *)
Fixpoint parse_members (fuel : nat) (s : string) (acc : list (string * string))
    : result (list (string * string) * string) :=
  match fuel with
  | O => Raise (JSONDecodeError "Expecting property name enclosed in double quotes")
  | S fuel' =>
      match s with
      | String c s1 =>
          if Ascii.eqb c dquote then
            k <- scanstring s1 ;;
            match skip_ws (snd k) with
            | String c2 s3 =>
                if Ascii.eqb c2 ":" then
                  match skip_ws s3 with
                  | String c3 s4 =>
                      if Ascii.eqb c3 dquote then
                        v <- scanstring s4 ;;
                        let acc' := (acc ++ [(fst k, fst v)])%list in
                        match skip_ws (snd v) with
                        | String c4 s6 =>
                            if Ascii.eqb c4 "," then
                              parse_members fuel' (skip_ws s6) acc'
                            else if Ascii.eqb c4 "}" then Ok (acc', s6)
                            else Raise (JSONDecodeError "Expecting ',' delimiter")
                        | EmptyString =>
                            Raise (JSONDecodeError "Expecting ',' delimiter")
                        end
                      else Raise (JSONDecodeError "Expecting value")
                  | EmptyString => Raise (JSONDecodeError "Expecting value")
                  end
                else Raise (JSONDecodeError "Expecting ':' delimiter")
            | EmptyString => Raise (JSONDecodeError "Expecting ':' delimiter")
            end
          else Raise (JSONDecodeError
                        "Expecting property name enclosed in double quotes")
      | EmptyString =>
          Raise (JSONDecodeError
                   "Expecting property name enclosed in double quotes")
      end
  end.

Definition json_end (members : list (string * string)) (rest : string)
    : result (list (string * string)) :=
  match skip_ws rest with
  | EmptyString => Ok members
  | String _ _ => Raise (JSONDecodeError "Extra data")
  end.

(** [json.loads] on a document that is one object with string members. *)
Definition json_loads (text : string) : result (list (string * string)) :=
  match skip_ws text with
  | String c s1 =>
      if Ascii.eqb c "{" then
        match skip_ws s1 with
        | String c1 s2 =>
            if Ascii.eqb c1 "}" then json_end [] s2
            else
              r <- parse_members (String.length text) (String c1 s2) [] ;;
              json_end (fst r) (snd r)
        | EmptyString =>
            Raise (JSONDecodeError
                     "Expecting property name enclosed in double quotes")
        end
      else Raise (JSONDecodeError "Expecting value")
  | EmptyString => Raise (JSONDecodeError "Expecting value")
  end.

(** [dict.get]: of several members with one name the last one counts. *)
Fixpoint dict_get (k : string) (d : list (string * string)) : option string :=
  match d with
  | [] => None
  | (k', v) :: d' =>
      match dict_get k d' with
      | Some v' => Some v'
      | None => if String.eqb k k' then Some v else None
      end
  end.

Local Close Scope N_scope.

(** ** The encoded key ([api_key_models.py]) *)

Module APIKey.

Record t : Type := mk {
  id : UUID;
  key : string
}.

(** [self.json()]: the object with the members [id] and [key], written by
    [json.dumps] with its default separators. *)
Definition json (self : t) : string :=
  "{" ++ json_dumps_str "id" ++ ": " ++ json_dumps_str (UUID_str (id self)) ++
  ", " ++ json_dumps_str "key" ++ ": " ++ json_dumps_str (key self) ++ "}".

(** [cls.parse_raw(text)]: the document is loaded and the two fields are
    validated; members of other names are ignored. *)
Definition parse_raw (text : string) : result t :=
  obj <- json_loads text ;;
  match dict_get "id" obj with
  | None => Raise (ValidationError "id: field required")
  | Some id_text =>
      id_value <- try_except_raise (UUID_parse id_text)
                    (ValidationError "id: value is not a valid uuid") ;;
      match dict_get "key" obj with
      | None => Raise (ValidationError "key: field required")
      | Some key_value => Ok (mk id_value key_value)
      end
  end.

(** The two calls inside the [try] block of [decode_api_key]. *)
Definition decode_api_key_body (encoded_key : string) : result t :=
  json_key <- b64_decode encoded_key ;; parse_raw json_key.

(** [decode_api_key(cls, encoded_key)]: whatever the block raises is
    replaced by one [ValueError]. *)
Definition decode_api_key (encoded_key : string) : result t :=
  try_except_raise (decode_api_key_body encoded_key)
    (ValueError "Invalid API key.").

(** [encode(self)] *)
Definition encode (self : t) : result string :=
  b64_encode (json self).

End APIKey.

(** ** Response models ([api_key_models.py]) *)

Module APIKeyResponseModel.

Record t : Type := mk {
  id : UUID;
  name : string;
  description : string;
  key : option string;
  active : bool;
  retain_period_minutes : Z;
  last_used : datetime;
  last_rotated : datetime;
  created : datetime;
  updated : datetime;
  workspace : UUID;
  user : UUID
}.

Definition with_key (self : t) (v : option string) : t :=
  mk (id self) (name self) (description self) v (active self)
     (retain_period_minutes self) (last_used self) (last_rotated self)
     (created self) (updated self) (workspace self) (user self).

(** [set_key(self, key)] *)
Definition set_key (self : t) (key : string) : result t :=
  encoded <- APIKey.encode (APIKey.mk (id self) key) ;;
  Ok (with_key self (Some encoded)).

End APIKeyResponseModel.

(** What [set_key] leaves alone: every field but [key]. *)
Definition same_but_key (v v' : APIKeyResponseModel.t) : Prop :=
  APIKeyResponseModel.id v' = APIKeyResponseModel.id v
  /\ APIKeyResponseModel.name v' = APIKeyResponseModel.name v
  /\ APIKeyResponseModel.description v' = APIKeyResponseModel.description v
  /\ APIKeyResponseModel.active v' = APIKeyResponseModel.active v
  /\ APIKeyResponseModel.retain_period_minutes v'
     = APIKeyResponseModel.retain_period_minutes v
  /\ APIKeyResponseModel.last_used v' = APIKeyResponseModel.last_used v
  /\ APIKeyResponseModel.last_rotated v' = APIKeyResponseModel.last_rotated v
  /\ APIKeyResponseModel.created v' = APIKeyResponseModel.created v
  /\ APIKeyResponseModel.updated v' = APIKeyResponseModel.updated v
  /\ APIKeyResponseModel.workspace v' = APIKeyResponseModel.workspace v
  /\ APIKeyResponseModel.user v' = APIKeyResponseModel.user v.

(** [APIKeyInternalResponseModel]: the response model together with the
    hashed keys.  [key] is [Optional[str]] in the response model and
    [previous_key] is [Optional[str]]. *)
Module APIKeyInternalResponseModel.

Record t : Type := mk {
  id : UUID;
  name : string;
  description : string;
  key : option string;
  active : bool;
  retain_period_minutes : Z;
  last_used : datetime;
  last_rotated : datetime;
  previous_key : option string;
  created : datetime;
  updated : datetime;
  workspace : UUID;
  user : UUID
}.

(** The hash handed to the first [context.verify] call. *)
Definition current_key_hash (self : t) : string :=
  let key_hash := EmptyString in
  match key self with
  | Some k => if active self then k else key_hash
  | None => key_hash
  end.

(** The hash handed to the second [context.verify] call; [now] is the value
    of [datetime.now()]. *)
Definition previous_key_hash (self : t) (now : datetime) : string :=
  let key_hash := EmptyString in
  match previous_key self with
  | Some p =>
      if active self && (0 <? retain_period_minutes self) then
        if now - last_rotated self <? timedelta_minutes (retain_period_minutes self)
        then p else key_hash
      else key_hash
  | None => key_hash
  end.

(** [verify_key(self, key)], with the reading of [datetime.now()] passed
    in.  Both [context.verify] calls are made before the results are
    combined. *)
Definition verify_key (h : Handler) (self : t) (key : string) (now : datetime)
    : result bool :=
  result <- CryptContext_verify h key (Some (current_key_hash self)) ;;
  previous_result <- CryptContext_verify h key (Some (previous_key_hash self now)) ;;
  Ok (result || previous_result).

(** [verify_key] on a host whose clock is [c]. *)
Definition verify_key_at (h : Handler) (c : Clock) (self : t) (key : string)
    : result bool :=
  verify_key h self key (datetime_now c).

End APIKeyInternalResponseModel.

(** ** Request and update models *)

Module APIKeyRequestModel.
Record t : Type := mk {
  name : string;
  description : string;
  workspace : UUID;
  user : UUID
}.
End APIKeyRequestModel.

Module APIKeyRotateRequestModel.
Record t : Type := mk { retain_period_minutes : Z }.

(** [APIKeyRotateRequestModel(...)]: an omitted [retain_period_minutes]
    takes the declared default [0]. *)
Definition init (retain_period_minutes : option Z) : t :=
  match retain_period_minutes with
  | Some m => mk m
  | None => mk 0
  end.
End APIKeyRotateRequestModel.

(** [APIKeyUpdateModel]: [@update_model] makes every field optional. *)
Module APIKeyUpdateModel.

Record t : Type := mk {
  name : option string;
  description : option string;
  active : option bool
}.

(** The fields a caller supplies when it builds the model (keyword
    arguments, or the members of a JSON body): each is omitted ([None]) or
    given, possibly as an explicit [None] / [null]. *)
Record fields : Type := mkFields {
  given_name : option (option string);
  given_description : option (option string);
  given_active : option (option bool)
}.

Definition field_or {A : Type} (default : A) (given : option A) : A :=
  match given with Some v => v | None => default end.

(** [APIKeyUpdateModel(...)]: an omitted field takes the default its
    declaration carries, [name] has none, [description] has the empty string
    (from [APIKeyBaseModel]) and [active] has [True]. *)
Definition init (f : fields) : t :=
  {| name := field_or None (given_name f);
     description := field_or (Some EmptyString) (given_description f);
     active := field_or (Some true) (given_active f) |}.

End APIKeyUpdateModel.

Module APIKeyInternalUpdateModel.
Record t : Type := mk {
  base : APIKeyUpdateModel.t;
  update_last_used : bool
}.
End APIKeyInternalUpdateModel.

(** ** The schema ([api_key_schemas.py]) *)

Module APIKeySchema.

Record t : Type := mk {
  id : UUID;
  name : string;
  description : string;
  key : string;
  previous_key : option string;
  retain_period : Z;
  active : bool;
  last_used : datetime;
  last_rotated : datetime;
  workspace_id : UUID;
  user_id : UUID;
  created : datetime;
  updated : datetime
}.

(** The random draws of one call: the value of [token_hex(32)] and the
    salt used by [context.hash]. *)
Record entropy : Type := mkEntropy {
  token_hex_32 : string;
  salt : string
}.

Definition _generate_jwt_secret_key (e : entropy) : string := token_hex_32 e.

Definition _get_hashed_key (h : Handler) (e : entropy) (key : string) : string :=
  CryptContext_hash h (salt e) key.

(** [from_request]; [new_id] is the primary key the base schema draws. *)
Definition from_request (h : Handler) (c : Clock) (e : entropy) (new_id : UUID)
    (request : APIKeyRequestModel.t) : t * string :=
  let key := _generate_jwt_secret_key e in
  let hashed_key := _get_hashed_key h e key in
  let now := datetime_utcnow c in
  ({| id := new_id;
      name := APIKeyRequestModel.name request;
      description := APIKeyRequestModel.description request;
      key := hashed_key;
      previous_key := None;
      retain_period := 0;
      active := true;
      last_used := now;
      last_rotated := now;
      workspace_id := APIKeyRequestModel.workspace request;
      user_id := APIKeyRequestModel.user request;
      created := now;
      updated := now |},
   key).

Definition to_model (self : t) : APIKeyResponseModel.t :=
  {| APIKeyResponseModel.id := id self;
     APIKeyResponseModel.name := name self;
     APIKeyResponseModel.description := description self;
     APIKeyResponseModel.key := None;
     APIKeyResponseModel.workspace := workspace_id self;
     APIKeyResponseModel.user := user_id self;
     APIKeyResponseModel.created := created self;
     APIKeyResponseModel.updated := updated self;
     APIKeyResponseModel.last_used := last_used self;
     APIKeyResponseModel.last_rotated := last_rotated self;
     APIKeyResponseModel.retain_period_minutes := retain_period self;
     APIKeyResponseModel.active := active self |}.

Definition to_internal_model (self : t) : APIKeyInternalResponseModel.t :=
  {| APIKeyInternalResponseModel.id := id self;
     APIKeyInternalResponseModel.name := name self;
     APIKeyInternalResponseModel.description := description self;
     APIKeyInternalResponseModel.key := Some (key self);
     APIKeyInternalResponseModel.previous_key := previous_key self;
     APIKeyInternalResponseModel.workspace := workspace_id self;
     APIKeyInternalResponseModel.user := user_id self;
     APIKeyInternalResponseModel.created := created self;
     APIKeyInternalResponseModel.updated := updated self;
     APIKeyInternalResponseModel.last_used := last_used self;
     APIKeyInternalResponseModel.last_rotated := last_rotated self;
     APIKeyInternalResponseModel.retain_period_minutes := retain_period self;
     APIKeyInternalResponseModel.active := active self |}.

Definition set_name (self : t) (v : string) : t :=
  mk (id self) v (description self) (key self) (previous_key self)
     (retain_period self) (active self) (last_used self) (last_rotated self)
     (workspace_id self) (user_id self) (created self) (updated self).

Definition set_description (self : t) (v : string) : t :=
  mk (id self) (name self) v (key self) (previous_key self)
     (retain_period self) (active self) (last_used self) (last_rotated self)
     (workspace_id self) (user_id self) (created self) (updated self).

Definition set_active (self : t) (v : bool) : t :=
  mk (id self) (name self) (description self) (key self) (previous_key self)
     (retain_period self) v (last_used self) (last_rotated self)
     (workspace_id self) (user_id self) (created self) (updated self).

Definition set_updated (self : t) (v : datetime) : t :=
  mk (id self) (name self) (description self) (key self) (previous_key self)
     (retain_period self) (active self) (last_used self) (last_rotated self)
     (workspace_id self) (user_id self) (created self) v.

Definition set_last_used (self : t) (v : datetime) : t :=
  mk (id self) (name self) (description self) (key self) (previous_key self)
     (retain_period self) (active self) v (last_rotated self)
     (workspace_id self) (user_id self) (created self) (updated self).

Definition set_last_rotated (self : t) (v : datetime) : t :=
  mk (id self) (name self) (description self) (key self) (previous_key self)
     (retain_period self) (active self) (last_used self) v
     (workspace_id self) (user_id self) (created self) (updated self).

Definition set_key (self : t) (v : string) : t :=
  mk (id self) (name self) (description self) v (previous_key self)
     (retain_period self) (active self) (last_used self) (last_rotated self)
     (workspace_id self) (user_id self) (created self) (updated self).

Definition set_previous_key (self : t) (v : option string) : t :=
  mk (id self) (name self) (description self) (key self) v
     (retain_period self) (active self) (last_used self) (last_rotated self)
     (workspace_id self) (user_id self) (created self) (updated self).

Definition set_retain_period (self : t) (v : Z) : t :=
  mk (id self) (name self) (description self) (key self) (previous_key self)
     v (active self) (last_used self) (last_rotated self)
     (workspace_id self) (user_id self) (created self) (updated self).

(** [update(self, update)] *)
Definition update (c : Clock) (self : t) (update : APIKeyUpdateModel.t) : t :=
  let self :=
    match APIKeyUpdateModel.name update with
    | Some n => if truthy_str (Some n) then set_name self n else self
    | None => self
    end in
  let self :=
    match APIKeyUpdateModel.description update with
    | Some d => if truthy_str (Some d) then set_description self d else self
    | None => self
    end in
  let self :=
    match APIKeyUpdateModel.active update with
    | Some a => set_active self a
    | None => self
    end in
  set_updated self (datetime_utcnow c).

(** [internal_update(self, update)] *)
Definition internal_update (c : Clock) (self : t)
    (upd : APIKeyInternalUpdateModel.t) : t :=
  let self := update c self (APIKeyInternalUpdateModel.base upd) in
  if APIKeyInternalUpdateModel.update_last_used upd
  then set_last_used self (updated self)
  else self.

(** [rotate(self, rotate_request)] *)
Definition rotate (h : Handler) (c : Clock) (e : entropy) (self : t)
    (rotate_request : APIKeyRotateRequestModel.t) : t * string :=
  let self := set_updated self (datetime_utcnow c) in
  let self := set_previous_key self (Some (key self)) in
  let self := set_retain_period self
                (APIKeyRotateRequestModel.retain_period_minutes rotate_request) in
  let new_key := _generate_jwt_secret_key e in
  let self := set_key self (_get_hashed_key h e new_key) in
  let self := set_last_rotated self (updated self) in
  (self, new_key).

End APIKeySchema.

(** ** The client and the command line ([cli/api_key.py]) *)

Module Client.

Definition store := list APIKeySchema.t.

Definition matches (name_id_or_prefix : string) (r : APIKeySchema.t) : bool :=
  String.eqb (APIKeySchema.name r) name_id_or_prefix
  || String.eqb (UUID_str (APIKeySchema.id r)) name_id_or_prefix.

Fixpoint get (st : store) (name_id_or_prefix : string) : option APIKeySchema.t :=
  match st with
  | [] => None
  | r :: st' => if matches name_id_or_prefix r then Some r
                else get st' name_id_or_prefix
  end.

Fixpoint put (st : store) (name_id_or_prefix : string) (r' : APIKeySchema.t)
    : store :=
  match st with
  | [] => []
  | r :: st' => if matches name_id_or_prefix r then r' :: st'
                else r :: put st' name_id_or_prefix r'
  end.

(** Modelled from the spec: [Client.rotate_api_key] and the store it talks
    to are not among the sources.  The record is looked up by name or id
    ([KeyError] when there is none), rotated with a rotate request built
    from [retain_period_minutes], written back, and returned as the public
    view with the new key set. *)
Definition rotate_api_key (h : Handler) (c : Clock) (e : APIKeySchema.entropy)
    (st : store) (name_id_or_prefix : string) (retain_period_minutes : option Z)
    : result (store * APIKeyResponseModel.t) :=
  match get st name_id_or_prefix with
  | None => Raise (KeyError "No API key with this name or ID exists.")
  | Some r =>
      let request := APIKeyRotateRequestModel.init retain_period_minutes in
      let rotated := APIKeySchema.rotate h c e r request in
      view <- APIKeyResponseModel.set_key
                (APIKeySchema.to_model (fst rotated)) (snd rotated) ;;
      Ok (put st name_id_or_prefix (fst rotated), view)
  end.

End Client.

Module cli.

Definition newline : string := String "010"%char EmptyString.

(** [str(n)] of an [int]. *)
Definition str_int (n : Z) : string := NilZero.string_of_int (Z.to_int n).

(** [str(v)] of an optional string inside an f-string. *)
Definition str_optional (v : option string) : string :=
  match v with Some s => s | None => "None" end.

Definition rotated_message (name_or_id : string) : string :=
  "Successfully rotated API key `" ++ name_or_id ++ "`.".

Definition new_key_message (key : option string) : string :=
  "The new API key value is: '" ++ str_optional key ++ "'" ++ newline ++
  "Please store it safely as it will not be shown again.".

Definition retain_message (retain : Z) : string :=
  "The previous API key will remain valid for " ++ str_int retain ++ " minutes.".

(** [rotate_api_key(name_or_id, retain)]: the new store and the lines the
    command declares.  [cli_utils.error] ends the command with a
    [ClickException]; its message is kept as the text of the [KeyError],
    without the quoting of [str(e)] and the styling of [cli_utils.error]. *)
Definition rotate_api_key (h : Handler) (c : Clock) (e : APIKeySchema.entropy)
    (st : Client.store) (name_or_id : string) (retain : Z)
    : result (Client.store * list string) :=
  match Client.rotate_api_key h c e st name_or_id None with
  | Raise (KeyError msg) => Raise (ClickException msg)
  | Raise other => Raise other
  | Ok (st', api_key) =>
      Ok (st',
          rotated_message name_or_id
            :: new_key_message (APIKeyResponseModel.key api_key)
            :: (if retain =? 0 then [] else [retain_message retain]))
  end.

(** What a command shows: a confirmation prompt with the answer it got, or a
    line written by [cli_utils.declare]. *)
Inductive event : Type :=
| Confirmation (prompt : string) (answer : bool)
| Line (line : string).

Definition delete_prompt (name_or_id : string) : string :=
  "Are you sure you want to delete API key `" ++ name_or_id ++ "`?".

Definition deleted_message (name_or_id : string) : string :=
  "Deleted API key `" ++ name_or_id ++ "`.".

(** [delete_api_key(name_or_id, yes)].  What the command calls outside the
    sources is a parameter: [client_delete] is the client's
    [delete_api_key], from the store and the name to the new store or an
    exception; [str_exn] is Python's [str(e)] of an exception; [error] is
    the exception with which [cli_utils.error(text)] ends the command.
    [answer] is what the user replies if the confirmation is asked. *)
Definition delete_api_key {Store : Type}
    (client_delete : Store -> string -> result Store)
    (str_exn : exn -> string) (error : string -> exn) (answer : bool)
    (st : Store) (name_or_id : string) (yes : bool)
    : result (Store * list event) :=
  let delete (asked : list event) :=
    match client_delete st name_or_id with
    | Raise (KeyError a) => Raise (error (str_exn (KeyError a)))
    | Raise other => Raise other
    | Ok st' => Ok (st', asked ++ [Line (deleted_message name_or_id)])%list
    end in
  if negb yes then
    let confirmation := answer in
    let asked := [Confirmation (delete_prompt name_or_id) confirmation] in
    if negb confirmation then
      Ok (st, asked ++ [Line "API key deletion canceled."])%list
    else delete asked
  else delete [].

End cli.

(** ** The verifier as the specification words it

    The rotation policy and the verifier of the specification, over the
    internal response model.  A slot that holds no hash is read as the
    dummy value.  The verifier is a boolean function, as the specification
    has it. *)

Module Spec.

Import APIKeyInternalResponseModel.

Definition dummy_hash : string := EmptyString.

Definition slot (hash : option string) : string :=
  match hash with Some v => v | None => dummy_hash end.

(** [previous_secret_is_valid(record, now)] *)
Definition previous_secret_is_valid (record : t) (now : datetime) : bool :=
  active record
  && (0 <? retain_period_minutes record)
  && (now - last_rotated record <? timedelta_minutes (retain_period_minutes record)).

Definition effective_current_hash (record : t) : string :=
  if active record then slot (key record) else dummy_hash.

Definition effective_previous_hash (record : t) (now : datetime) : string :=
  if previous_secret_is_valid record now then slot (previous_key record)
  else dummy_hash.

(** [verify(record, presented_secret, now)].  [SecretHasher.verify] of the
    specification answers with a boolean for every hash value, the dummy
    included, and never raises; it is a parameter here.  Both verifications
    are evaluated, then the results are combined. *)
Definition verify (hasher_verify : string -> string -> bool) (record : t)
    (presented_secret : string) (now : datetime) : bool :=
  let current_ok :=
    hasher_verify presented_secret (effective_current_hash record) in
  let previous_ok :=
    hasher_verify presented_secret (effective_previous_hash record now) in
  current_ok || previous_ok.

End Spec.

(** ** A stand-in handler

    Not bcrypt: a handler whose hashes carry a bcrypt ident and verify
    exactly the secret they were made from.  It serves to run the model on
    examples. *)

Definition plain_hash (salt secret : string) : string :=
  "$2b$" ++ secret ++ "$" ++ salt.

Definition plain_verify (secret hash : string) : result bool :=
  Ok (String.prefix ("$2b$" ++ secret ++ "$") hash).

Definition plain_handler : Handler := mkHandler plain_verify plain_hash.

(** ** The scenarios of the specification *)

Module Scenario.

Definition workspace_id : UUID :=
  mkUUID "001" "002" "003" "004" "005" "006" "007" "008"
         "009" "010" "011" "012" "013" "014" "015" "016".

Definition user_id : UUID :=
  mkUUID "101" "102" "103" "104" "105" "106" "107" "108"
         "109" "110" "111" "112" "113" "114" "115" "116".

Definition key_id : UUID :=
  mkUUID "018" "052" "086" "120" "154" "188" "222" "240"
         "018" "052" "086" "120" "154" "188" "222" "240".

(** The first secret and the secret drawn at rotation. *)
Definition S1 : string :=
  "5f2c9a1e44b07d3386aa10c2e9f4b57d0c6e2f8a91b3d4c5e6f708192a3b4c5d".

Definition S2 : string :=
  "a81d3c70e2954fb6c1d0e3f2a4b5968778695a4b3c2d1e0ff0e1d2c3b4a59687".

Definition entropy1 : APIKeySchema.entropy := APIKeySchema.mkEntropy S1 "c2FsdDE".
Definition entropy2 : APIKeySchema.entropy := APIKeySchema.mkEntropy S2 "c2FsdDI".

Definition minute : Z := 60000000.
Definition hour : Z := 60 * minute.

(** Creation at some instant, on a host that keeps UTC. *)
Definition t0 : Z := 1700000000000000.
Definition clock0 : Clock := mkClock t0 0.

(** One hour later, on a host that keeps UTC ... *)
Definition clock_utc : Clock := mkClock (t0 + hour) 0.
(** ... and at the same instant on a host two hours east of UTC. *)
Definition clock_east : Clock := mkClock (t0 + hour) (2 * hour).
(** A host five hours west of UTC, at that instant and eleven minutes on. *)
Definition clock_west : Clock := mkClock (t0 + hour) (- (5 * hour)).
Definition clock_west_later : Clock :=
  mkClock (t0 + hour + 11 * minute) (- (5 * hour)).
(** The host that keeps UTC, eleven minutes on. *)
Definition clock_utc_later : Clock := mkClock (t0 + hour + 11 * minute) 0.

Definition request (name : string) : APIKeyRequestModel.t :=
  APIKeyRequestModel.mk name EmptyString workspace_id user_id.

(** [create key "ci"]: the stored record; its secret is [S1]. *)
Definition created (h : Handler) (name : string) : APIKeySchema.t :=
  fst (APIKeySchema.from_request h clock0 entropy1 key_id (request name)).

(** [rotate(retain)] on a host whose clock is [c]; the new secret is [S2]. *)
Definition rotated (h : Handler) (c : Clock) (retain : Z) : APIKeySchema.t :=
  fst (APIKeySchema.rotate h c entropy2 (created h "ci")
         (APIKeyRotateRequestModel.mk retain)).

(** [update(active=false)] on the key "svc". *)
Definition deactivate : APIKeyUpdateModel.t :=
  APIKeyUpdateModel.init
    (APIKeyUpdateModel.mkFields None None (Some (Some false))).

Definition deactivated (h : Handler) : APIKeySchema.t :=
  APIKeySchema.update clock_utc (created h "svc") deactivate.

(** An update request that supplies a description and nothing else. *)
Definition describe_only : APIKeyUpdateModel.t :=
  APIKeyUpdateModel.init
    (APIKeyUpdateModel.mkFields None (Some (Some "nightly builds")) None).

End Scenario.

(** * Properties *)

(** ** The result monad *)

Lemma bind_Ok {A B : Type} (a : A) (k : A -> result B) :
  bind (Ok a) k = k a.
Proof. reflexivity. Qed.

Lemma bind_Raise {A B : Type} (e : exn) (k : A -> result B) :
  bind (Raise e) k = Raise e.
Proof. reflexivity. Qed.

Lemma try_except_raise_cases {A : Type} (c : result A) (e : exn) :
  (exists a, c = Ok a /\ try_except_raise c e = Ok a)
  \/ (is_raise c = true /\ try_except_raise c e = Raise e).
Proof.
  destruct c as [a | e0]; [left; exists a | right]; split; reflexivity.
Qed.

(** ** Text helpers *)

Ltac each_ascii a := destruct a as [[] [] [] [] [] [] [] []].

Lemma chr_code (a : ascii) : chr (code a) = a.
Proof. apply ascii_N_embedding. Qed.

Lemma code_bound (a : ascii) : (code a < 256)%N.
Proof. apply N_ascii_bounded. Qed.

Lemma append_String (c : ascii) (s t : string) :
  (String c s ++ t)%string = String c (s ++ t).
Proof. reflexivity. Qed.

Lemma append_assoc' (s t r : string) :
  ((s ++ t) ++ r)%string = (s ++ (t ++ r))%string.
Proof.
  induction s as [| c s IH]; simpl; [reflexivity | now rewrite IH].
Qed.

Lemma append_nil_r (s : string) : (s ++ EmptyString)%string = s.
Proof.
  induction s as [| c s IH]; simpl; [reflexivity | now rewrite IH].
Qed.

Lemma string_forallb_app (p : ascii -> bool) (s t : string) :
  string_forallb p (s ++ t) = string_forallb p s && string_forallb p t.
Proof.
  induction s as [| c s IH]; simpl; [reflexivity |].
  now rewrite IH, andb_assoc.
Qed.

Lemma string_filter_all (p : ascii -> bool) (s : string) :
  string_forallb p s = true -> string_filter p s = s.
Proof.
  induction s as [| c s IH]; simpl; [reflexivity |].
  intros H. apply andb_prop in H as [Hc Hs]. now rewrite Hc, IH.
Qed.

(** Hexadecimal digits and the text form of a UUID. *)

Lemma unhex_hex2 (a : ascii) (r : string) :
  unhex (hex2 a ++ r) =
  match unhex r with Some bs => Some (a :: bs) | None => None end.
Proof.
  each_ascii a; cbn [hex2 append unhex]; destruct (unhex r); reflexivity.
Qed.

Lemma filter_hex2 (a : ascii) (r : string) :
  string_filter not_hyphen (hex2 a ++ r) =
  (hex2 a ++ string_filter not_hyphen r)%string.
Proof. each_ascii a; reflexivity. Qed.

Lemma filter_hyphen (r : string) :
  string_filter not_hyphen ("-" ++ r) = string_filter not_hyphen r.
Proof. reflexivity. Qed.

Lemma UUID_parse_str (u : UUID) : UUID_parse (UUID_str u) = Ok u.
Proof.
  destruct u as [b0 b1 b2 b3 b4 b5 b6 b7 b8 b9 b10 b11 b12 b13 b14 b15].
  unfold UUID_parse, UUID_str.
  cbn [u0 u1 u2 u3 u4 u5 u6 u7 u8 u9 u10 u11 u12 u13 u14 u15].
  rewrite <- (append_nil_r (hex2 b15)).
  repeat (rewrite filter_hex2 || rewrite filter_hyphen).
  cbn [string_filter].
  rewrite !unhex_hex2. reflexivity.
Qed.

(** UTF-8. *)

Lemma bytes_decode_encode_char (a : ascii) (s : string) :
  bytes_decode (str_encode (String a s)) =
  (r <- bytes_decode (str_encode s) ;; Ok (String a r)).
Proof. each_ascii a; reflexivity. Qed.

Lemma bytes_decode_str_encode (s : string) :
  bytes_decode (str_encode s) = Ok s.
Proof.
  induction s as [| a s IH]; [reflexivity |].
  rewrite bytes_decode_encode_char, IH. reflexivity.
Qed.

Lemma str_encode_ascii (s : string) :
  string_forallb is_ascii s = true -> str_encode s = s.
Proof.
  induction s as [| a s IH]; simpl; [reflexivity |].
  intros H. apply andb_prop in H as [Ha Hs]. now rewrite Ha, IH.
Qed.

Lemma bytes_decode_ascii (s : string) :
  string_forallb is_ascii s = true -> bytes_decode s = Ok s.
Proof.
  induction s as [| a s IH]; simpl; [reflexivity |].
  intros H. apply andb_prop in H as [Ha Hs]. now rewrite Ha, IH.
Qed.

(** Base64. *)

Lemma forallb_below (f : N -> bool) (n : nat) :
  forallb f (map N.of_nat (seq 0 n)) = true ->
  forall v, (v < N.of_nat n)%N -> f v = true.
Proof.
  intros H v Hv. rewrite forallb_forall in H. apply H.
  rewrite <- (N2Nat.id v). apply in_map. apply in_seq. lia.
Qed.

Lemma sextet_ok_all (v : N) : (v < 64)%N -> sextet_ok v = true.
Proof. apply (forallb_below sextet_ok 64). vm_compute. reflexivity. Qed.

Lemma b64_value_char (v : N) : (v < 64)%N -> b64_value (b64_char v) = Some v.
Proof.
  intros H. apply sextet_ok_all in H. unfold sextet_ok in H.
  apply andb_prop in H as [H _]. apply andb_prop in H as [H _].
  destruct (b64_value (b64_char v)) as [w |]; [| discriminate].
  apply N.eqb_eq in H. now subst.
Qed.

Lemma b64_char_not_pad (v : N) :
  (v < 64)%N -> Ascii.eqb (b64_char v) b64_pad = false.
Proof.
  intros H. apply sextet_ok_all in H. unfold sextet_ok in H.
  apply andb_prop in H as [H _]. apply andb_prop in H as [_ H].
  now apply negb_true_iff in H.
Qed.

Lemma b64_char_ascii (v : N) : (v < 64)%N -> is_ascii (b64_char v) = true.
Proof.
  intros H. apply sextet_ok_all in H. unfold sextet_ok in H.
  now apply andb_prop in H as [_ H].
Qed.

Lemma b64_char_is_b64 (v : N) : (v < 64)%N -> is_b64_char (b64_char v) = true.
Proof.
  intros H. unfold is_b64_char. now rewrite b64_value_char.
Qed.

Lemma string_ind3 (P : string -> Prop) :
  P EmptyString ->
  (forall a, P (String a EmptyString)) ->
  (forall a b, P (String a (String b EmptyString))) ->
  (forall a b c r, P r -> P (String a (String b (String c r)))) ->
  forall s, P s.
Proof.
  intros H0 H1 H2 H3.
  assert (H : forall s, P s /\ (forall a, P (String a s))
                        /\ (forall a b, P (String a (String b s)))).
  { induction s as [| c s [IH0 [IH1 IH2]]].
    - repeat split; auto.
    - repeat split; auto. }
  intros s. apply H.
Qed.

Section Sextets.
Variables a b c : ascii.

Lemma sextet1_lt : (code a / 4 < 64)%N.
Proof. pose proof (code_bound a). apply N.Div0.div_lt_upper_bound. lia. Qed.

Lemma sextet2_lt : (code a mod 4 * 16 + code b / 16 < 64)%N.
Proof.
  pose proof (code_bound b).
  assert (code a mod 4 < 4)%N by (apply N.mod_lt; lia).
  assert (code b / 16 < 16)%N by (apply N.Div0.div_lt_upper_bound; lia).
  lia.
Qed.

Lemma sextet2_lt' : (code a mod 4 * 16 < 64)%N.
Proof. assert (code a mod 4 < 4)%N by (apply N.mod_lt; lia). lia. Qed.

Lemma sextet3_lt : (code b mod 16 * 4 + code c / 64 < 64)%N.
Proof.
  pose proof (code_bound c).
  assert (code b mod 16 < 16)%N by (apply N.mod_lt; lia).
  assert (code c / 64 < 4)%N by (apply N.Div0.div_lt_upper_bound; lia).
  lia.
Qed.

Lemma sextet3_lt' : (code b mod 16 * 4 < 64)%N.
Proof. assert (code b mod 16 < 16)%N by (apply N.mod_lt; lia). lia. Qed.

Lemma sextet4_lt : (code c mod 64 < 64)%N.
Proof. apply N.mod_lt; lia. Qed.

Lemma byte1_back :
  (code a / 4 * 4 + (code a mod 4 * 16 + code b / 16) / 16 = code a)%N.
Proof.
  pose proof (code_bound b).
  assert (code b / 16 < 16)%N by (apply N.Div0.div_lt_upper_bound; lia).
  replace (code a mod 4 * 16 + code b / 16)%N
    with (code b / 16 + code a mod 4 * 16)%N by lia.
  rewrite N.div_add by lia. rewrite (N.div_small (code b / 16)) by lia.
  pose proof (N.div_mod (code a) 4). lia.
Qed.

Lemma byte1_back' :
  (code a / 4 * 4 + (code a mod 4 * 16) / 16 = code a)%N.
Proof.
  rewrite N.div_mul by lia. pose proof (N.div_mod (code a) 4). lia.
Qed.

Lemma byte2_back :
  ((code a mod 4 * 16 + code b / 16) mod 16 * 16
   + (code b mod 16 * 4 + code c / 64) / 4 = code b)%N.
Proof.
  pose proof (code_bound b). pose proof (code_bound c).
  assert (code b / 16 < 16)%N by (apply N.Div0.div_lt_upper_bound; lia).
  assert (code c / 64 < 4)%N by (apply N.Div0.div_lt_upper_bound; lia).
  replace (code a mod 4 * 16 + code b / 16)%N
    with (code b / 16 + code a mod 4 * 16)%N by lia.
  rewrite N.Div0.mod_add. rewrite (N.mod_small (code b / 16)) by lia.
  replace (code b mod 16 * 4 + code c / 64)%N
    with (code c / 64 + code b mod 16 * 4)%N by lia.
  rewrite N.div_add by lia. rewrite (N.div_small (code c / 64)) by lia.
  pose proof (N.div_mod (code b) 16). lia.
Qed.

Lemma byte2_back' :
  ((code a mod 4 * 16 + code b / 16) mod 16 * 16
   + (code b mod 16 * 4) / 4 = code b)%N.
Proof.
  pose proof (code_bound b).
  assert (code b / 16 < 16)%N by (apply N.Div0.div_lt_upper_bound; lia).
  replace (code a mod 4 * 16 + code b / 16)%N
    with (code b / 16 + code a mod 4 * 16)%N by lia.
  rewrite N.Div0.mod_add. rewrite (N.mod_small (code b / 16)) by lia.
  rewrite N.div_mul by lia.
  pose proof (N.div_mod (code b) 16). lia.
Qed.

Lemma byte3_back :
  ((code b mod 16 * 4 + code c / 64) mod 4 * 64 + code c mod 64 = code c)%N.
Proof.
  pose proof (code_bound c).
  assert (code c / 64 < 4)%N by (apply N.Div0.div_lt_upper_bound; lia).
  replace (code b mod 16 * 4 + code c / 64)%N
    with (code c / 64 + code b mod 16 * 4)%N by lia.
  rewrite N.Div0.mod_add. rewrite (N.mod_small (code c / 64)) by lia.
  pose proof (N.div_mod (code c) 64). lia.
Qed.
End Sextets.

Lemma b64encode_chars (bs : string) :
  string_forallb (fun ch => is_b64_char ch && is_ascii ch) (b64encode bs) = true.
Proof.
  induction bs as [| a | a b | a b c r IH] using string_ind3;
    cbn [b64encode string_forallb].
  - reflexivity.
  - rewrite (b64_char_is_b64 _ (sextet1_lt a)), (b64_char_ascii _ (sextet1_lt a)),
      (b64_char_is_b64 _ (sextet2_lt' a)), (b64_char_ascii _ (sextet2_lt' a)).
    reflexivity.
  - rewrite (b64_char_is_b64 _ (sextet1_lt a)), (b64_char_ascii _ (sextet1_lt a)),
      (b64_char_is_b64 _ (sextet2_lt a b)), (b64_char_ascii _ (sextet2_lt a b)),
      (b64_char_is_b64 _ (sextet3_lt' b)), (b64_char_ascii _ (sextet3_lt' b)).
    reflexivity.
  - rewrite (b64_char_is_b64 _ (sextet1_lt a)), (b64_char_ascii _ (sextet1_lt a)),
      (b64_char_is_b64 _ (sextet2_lt a b)), (b64_char_ascii _ (sextet2_lt a b)),
      (b64_char_is_b64 _ (sextet3_lt b c)), (b64_char_ascii _ (sextet3_lt b c)),
      (b64_char_is_b64 _ (sextet4_lt c)), (b64_char_ascii _ (sextet4_lt c)), IH.
    reflexivity.
Qed.

Lemma string_forallb_weaken (p q : ascii -> bool) (s : string) :
  (forall ch, p ch = true -> q ch = true) ->
  string_forallb p s = true -> string_forallb q s = true.
Proof.
  intros Hpq. induction s as [| ch s IH]; simpl; [reflexivity |].
  intros H. apply andb_prop in H as [Hc Hs]. now rewrite (Hpq _ Hc), IH.
Qed.

Lemma b64encode_is_b64 (bs : string) :
  string_forallb is_b64_char (b64encode bs) = true.
Proof.
  apply (string_forallb_weaken _ _ _ (fun ch H => proj1 (andb_prop _ _ H))
           (b64encode_chars bs)).
Qed.

Lemma b64encode_is_ascii (bs : string) :
  string_forallb is_ascii (b64encode bs) = true.
Proof.
  apply (string_forallb_weaken _ _ _ (fun ch H => proj2 (andb_prop _ _ H))
           (b64encode_chars bs)).
Qed.

Lemma b64decode_groups_b64encode (bs : string) :
  b64decode_groups (b64encode bs) = Ok bs.
Proof.
  induction bs as [| a | a b | a b c r IH] using string_ind3;
    cbn [b64encode b64decode_groups].
  - reflexivity.
  - rewrite Ascii.eqb_refl.
    rewrite (b64_value_char _ (sextet1_lt a)), (b64_value_char _ (sextet2_lt' a)).
    rewrite byte1_back', chr_code. reflexivity.
  - rewrite Ascii.eqb_refl, (b64_char_not_pad _ (sextet3_lt' b)).
    rewrite (b64_value_char _ (sextet1_lt a)), (b64_value_char _ (sextet2_lt a b)),
      (b64_value_char _ (sextet3_lt' b)).
    rewrite byte1_back, byte2_back', !chr_code. reflexivity.
  - rewrite (b64_char_not_pad _ (sextet4_lt c)).
    rewrite (b64_value_char _ (sextet1_lt a)), (b64_value_char _ (sextet2_lt a b)),
      (b64_value_char _ (sextet3_lt b c)), (b64_value_char _ (sextet4_lt c)).
    rewrite IH, bind_Ok.
    rewrite byte1_back, byte2_back, byte3_back, !chr_code. reflexivity.
Qed.

Lemma b64decode_b64encode (bs : string) : b64decode (b64encode bs) = Ok bs.
Proof.
  unfold b64decode.
  rewrite (string_filter_all _ _ (b64encode_is_b64 bs)).
  apply b64decode_groups_b64encode.
Qed.

Lemma b64_encode_Ok (input_ : string) :
  b64_encode input_ = Ok (b64encode (str_encode input_)).
Proof. apply bytes_decode_ascii, b64encode_is_ascii. Qed.

Lemma b64_decode_b64encode (input_ : string) :
  b64_decode (b64encode (str_encode input_)) = Ok input_.
Proof.
  unfold b64_decode.
  rewrite (str_encode_ascii _ (b64encode_is_ascii _)).
  rewrite b64decode_b64encode, bind_Ok.
  apply bytes_decode_str_encode.
Qed.

(** JSON text. *)

Lemma scanstring_escape_char (a : ascii) (t : string) :
  scanstring (json_escape_char a ++ t) =
  (r <- scanstring t ;; Ok (String a (fst r), snd r)).
Proof. each_ascii a; reflexivity. Qed.

Lemma scanstring_escape (s rest : string) :
  scanstring (json_escape s ++ String dquote rest) = Ok (s, rest).
Proof.
  induction s as [| a s IH]; [reflexivity |].
  cbn [json_escape]. rewrite append_assoc', scanstring_escape_char, IH.
  reflexivity.
Qed.

Lemma quoted_app (body rest : string) :
  (quoted body ++ rest)%string = String dquote (body ++ String dquote rest).
Proof.
  unfold quoted. rewrite append_String, append_assoc'. reflexivity.
Qed.

(** The text of an object with the members [id] and [key]. *)
Lemma APIKey_json_text (k : APIKey.t) :
  APIKey.json k =
  String "{" (String dquote ("id" ++ String dquote (": " ++
    String dquote (json_escape (UUID_str (APIKey.id k)) ++ String dquote (", " ++
    String dquote ("key" ++ String dquote (": " ++
    String dquote (json_escape (APIKey.key k) ++ String dquote "}")))))))).
Proof.
  unfold APIKey.json, json_dumps_str.
  rewrite append_String. cbn [append].
  rewrite !quoted_app. reflexivity.
Qed.

Lemma parse_two_members (fuel : nat) (U K : string) :
  parse_members (S (S fuel))
    (String dquote ("id" ++ String dquote (": " ++
       String dquote (json_escape U ++ String dquote (", " ++
       String dquote ("key" ++ String dquote (": " ++
       String dquote (json_escape K ++ String dquote "}"))))))))
    [] = Ok ([("id", U); ("key", K)]%string, EmptyString).
Proof.
  cbn -[json_escape]. rewrite scanstring_escape.
  cbn -[json_escape]. rewrite scanstring_escape.
  reflexivity.
Qed.

Lemma json_loads_json (k : APIKey.t) :
  json_loads (APIKey.json k) =
  Ok [("id", UUID_str (APIKey.id k)); ("key", APIKey.key k)]%string.
Proof.
  rewrite APIKey_json_text.
  generalize (UUID_str (APIKey.id k)) (APIKey.key k). intros U K.
  unfold json_loads.
  cbn -[json_escape parse_members String.length]. cbn [String.length].
  match goal with
  | |- context [parse_members (S (S ?n))] =>
      pose proof (parse_two_members n U K) as E
  end.
  cbn -[json_escape parse_members] in E. rewrite E. reflexivity.
Qed.

Lemma parse_raw_json (k : APIKey.t) : APIKey.parse_raw (APIKey.json k) = Ok k.
Proof.
  unfold APIKey.parse_raw. rewrite json_loads_json, bind_Ok.
  cbn [dict_get String.eqb Ascii.eqb Bool.eqb].
  rewrite UUID_parse_str. destruct k; reflexivity.
Qed.

(** The token codec: [encode] always returns, and decoding what it returns
    gives the key back. *)
Lemma encode_Ok (k : APIKey.t) :
  APIKey.encode k = Ok (b64encode (str_encode (APIKey.json k))).
Proof. apply b64_encode_Ok. Qed.

Lemma decode_encoded (k : APIKey.t) :
  APIKey.decode_api_key (b64encode (str_encode (APIKey.json k))) = Ok k.
Proof.
  unfold APIKey.decode_api_key, APIKey.decode_api_key_body.
  rewrite b64_decode_b64encode, bind_Ok, parse_raw_json. reflexivity.
Qed.

(** ** Verification *)

Import APIKeyInternalResponseModel.

Lemma CryptContext_verify_None (h : Handler) (secret : string) :
  CryptContext_verify h secret None = Ok false.
Proof. reflexivity. Qed.

Lemma CryptContext_verify_empty (h : Handler) (secret : string) :
  CryptContext_verify h secret (Some EmptyString) = Raise unknown_hash.
Proof. reflexivity. Qed.

Lemma current_key_hash_spec (r : t) :
  current_key_hash r = Spec.effective_current_hash r.
Proof.
  unfold current_key_hash, Spec.effective_current_hash, Spec.slot, Spec.dummy_hash.
  destruct (key r), (active r); reflexivity.
Qed.

Lemma previous_key_hash_spec (r : t) (now : datetime) :
  previous_key_hash r now = Spec.effective_previous_hash r now.
Proof.
  unfold previous_key_hash, Spec.effective_previous_hash,
    Spec.previous_secret_is_valid, Spec.slot, Spec.dummy_hash.
  destruct (previous_key r), (active r), (0 <? retain_period_minutes r),
    (now - last_rotated r <? timedelta_minutes (retain_period_minutes r));
    reflexivity.
Qed.

(** Where the context answers for both slots, [verify_key] returns the
    disjunction of the two answers. *)
Lemma verify_key_both_answers (h : Handler) (r : t) (presented : string)
    (now : datetime) (b1 b2 : bool) :
  CryptContext_verify h presented (Some (current_key_hash r)) = Ok b1 ->
  CryptContext_verify h presented (Some (previous_key_hash r now)) = Ok b2 ->
  verify_key h r presented now = Ok (b1 || b2).
Proof. intros E1 E2. unfold verify_key. rewrite E1, E2. reflexivity. Qed.

(** Whenever one of the two slots falls back to the dummy value, the call
    raises: the context does not identify the empty string as a hash. *)
Lemma verify_key_dummy_current (h : Handler) (r : t) (presented : string)
    (now : datetime) :
  current_key_hash r = EmptyString ->
  verify_key h r presented now = Raise unknown_hash.
Proof. intros E. unfold verify_key. rewrite E. reflexivity. Qed.

Lemma verify_key_dummy_previous (h : Handler) (r : t) (presented : string)
    (now : datetime) :
  previous_key_hash r now = EmptyString ->
  is_raise (verify_key h r presented now) = true.
Proof.
  intros E. unfold verify_key. rewrite E.
  destruct (CryptContext_verify h presented (Some (current_key_hash r)));
    reflexivity.
Qed.

Lemma is_raise_not_Ok {A : Type} (c : result A) (a : A) :
  is_raise c = true -> c <> Ok a.
Proof. destruct c; [discriminate | intros _ H; discriminate H]. Qed.

(** C1, evaluated on a key that was created and never rotated, presented
    with its own secret: [verify_key] hands the two verifications the
    hashes the specification names, the second of them the dummy value, but
    where the specification's verifier returns the disjunction of the two
    answers of the hasher, [verify_key] raises and returns no boolean at
    all, whatever the handler and whatever the specification's hasher. *)
Theorem verify_key_raises_where_spec_returns
    (h : Handler) (hasher_verify : string -> string -> bool) :
  let r := APIKeySchema.to_internal_model (Scenario.created h "ci") in
  let now := datetime_now Scenario.clock_utc in
  current_key_hash r = Spec.effective_current_hash r
  /\ previous_key_hash r now = Spec.effective_previous_hash r now
  /\ Spec.effective_previous_hash r now = Spec.dummy_hash
  /\ Spec.verify hasher_verify r Scenario.S1 now
     = hasher_verify Scenario.S1 (APIKeySchema.key (Scenario.created h "ci"))
       || hasher_verify Scenario.S1 Spec.dummy_hash
  /\ is_raise (verify_key h r Scenario.S1 now) = true
  /\ verify_key h r Scenario.S1 now
     <> Ok (Spec.verify hasher_verify r Scenario.S1 now).
Proof.
  cbv zeta.
  assert (R : is_raise
                (verify_key h
                   (APIKeySchema.to_internal_model (Scenario.created h "ci"))
                   Scenario.S1 (datetime_now Scenario.clock_utc)) = true).
  { apply verify_key_dummy_previous. reflexivity. }
  split; [apply current_key_hash_spec |].
  split; [apply previous_key_hash_spec |].
  split; [reflexivity |].
  split; [reflexivity |].
  split; [exact R |].
  apply is_raise_not_Ok, R.
Qed.

Lemma current_key_hash_inactive (r : t) :
  active r = false -> current_key_hash r = EmptyString.
Proof.
  intros E. unfold current_key_hash. rewrite E. destruct (key r); reflexivity.
Qed.

Lemma verify_key_inactive (h : Handler) (r : t) (presented : string)
    (now : datetime) :
  active r = false -> verify_key h r presented now = Raise unknown_hash.
Proof. intros E. apply verify_key_dummy_current, current_key_hash_inactive, E. Qed.

(** An inactive record never verifies a secret: the call does not answer
    [True]. *)
Lemma verify_key_inactive_never_true (h : Handler) (r : t) (presented : string)
    (now : datetime) :
  active r = false -> verify_key h r presented now <> Ok true.
Proof. intros E. rewrite (verify_key_inactive h r presented now E). discriminate. Qed.

(** C2, evaluated on the scenario of the specification (create "svc",
    [update(active=false)], verify the secret): the record is inactive, and
    for every handler the verification of its own secret raises
    [UnknownHashError] where the claim has it return [False]. *)
Theorem verify_key_deactivated_raises (h : Handler) :
  APIKeySchema.active (Scenario.deactivated h) = false
  /\ verify_key_at h Scenario.clock_utc
       (APIKeySchema.to_internal_model (Scenario.deactivated h)) Scenario.S1
     = Raise unknown_hash.
Proof.
  split; [reflexivity |].
  apply verify_key_inactive. reflexivity.
Qed.

(** C8, evaluated on the dummy value: for every handler and every presented
    secret, the context's [verify] against the empty hash raises
    [UnknownHashError] where the claim has it return [False]; so does
    [verify_key] on every inactive record. *)
Theorem verify_dummy_hash_raises (h : Handler) (presented : string) :
  CryptContext_verify h presented (Some Spec.dummy_hash) = Raise unknown_hash
  /\ verify_key_at h Scenario.clock_utc
       (APIKeySchema.to_internal_model (Scenario.deactivated h)) presented
     = Raise unknown_hash.
Proof.
  split; [reflexivity |].
  apply verify_key_inactive. reflexivity.
Qed.

(** ** The grace window *)

(** What the comparison in [verify_key] decides, in terms of the reading
    [now] of [datetime.now()]. *)
Lemma previous_key_hash_iff (r : t) (now : datetime) (p : string) :
  previous_key r = Some p -> p <> EmptyString ->
  (previous_key_hash r now = p <->
   active r = true /\ 0 < retain_period_minutes r
   /\ now - last_rotated r < timedelta_minutes (retain_period_minutes r)).
Proof.
  intros Hp Hne. unfold previous_key_hash. rewrite Hp.
  destruct (active r); cbn [andb].
  - destruct (Z.ltb_spec 0 (retain_period_minutes r)).
    + destruct (Z.ltb_spec (now - last_rotated r)
                  (timedelta_minutes (retain_period_minutes r))).
      * split; [intros _; repeat split; assumption | reflexivity].
      * split; [intros E; symmetry in E; contradiction | intros [_ [_ H']]; lia].
    + split; [intros E; symmetry in E; contradiction | intros [_ [H' _]]; lia].
  - split; [intros E; symmetry in E; contradiction | intros [H' _]; discriminate].
Qed.

(** On a host whose clock is [c] the reading is the instant moved by the
    offset of the local time zone, while [rotate] records the instant. *)
Lemma previous_key_hash_at (c : Clock) (r : t) (p : string) :
  previous_key r = Some p -> p <> EmptyString ->
  (previous_key_hash r (datetime_now c) = p <->
   active r = true /\ 0 < retain_period_minutes r
   /\ datetime_utcnow c + utcoffset c - last_rotated r
      < timedelta_minutes (retain_period_minutes r)).
Proof. intros Hp Hne. apply previous_key_hash_iff; assumption. Qed.

Lemma rotate_previous_key (h : Handler) (c : Clock) (e : APIKeySchema.entropy)
    (self : APIKeySchema.t) (req : APIKeyRotateRequestModel.t) :
  APIKeySchema.previous_key (fst (APIKeySchema.rotate h c e self req))
  = Some (APIKeySchema.key self).
Proof. reflexivity. Qed.

Lemma rotate_last_rotated (h : Handler) (c : Clock) (e : APIKeySchema.entropy)
    (self : APIKeySchema.t) (req : APIKeyRotateRequestModel.t) :
  APIKeySchema.last_rotated (fst (APIKeySchema.rotate h c e self req))
  = datetime_utcnow c.
Proof. reflexivity. Qed.

Lemma rotate_retain_period (h : Handler) (c : Clock) (e : APIKeySchema.entropy)
    (self : APIKeySchema.t) (req : APIKeyRotateRequestModel.t) :
  APIKeySchema.retain_period (fst (APIKeySchema.rotate h c e self req))
  = APIKeyRotateRequestModel.retain_period_minutes req.
Proof. reflexivity. Qed.

Lemma previous_key_hash_no_retain (r : t) (now : datetime) :
  retain_period_minutes r = 0 -> previous_key_hash r now = EmptyString.
Proof.
  intros E. unfold previous_key_hash. rewrite E.
  destruct (previous_key r), (active r); reflexivity.
Qed.

(** C3, evaluated on a host two hours east of UTC: the key is rotated with
    a retain period of ten minutes and the old secret is presented at the
    very instant of the rotation.  The record is active, the retain period
    is positive and no time has passed since the recorded [last_rotated],
    yet [verify_key] takes the dummy value for the previous slot and does
    not accept the old secret. *)
Theorem previous_key_rejected_east_of_utc (h : Handler) :
  let r := APIKeySchema.to_internal_model
             (Scenario.rotated h Scenario.clock_east 10) in
  active r = true
  /\ 0 < retain_period_minutes r
  /\ previous_key r = Some (APIKeySchema.key (Scenario.created h "ci"))
  /\ instant Scenario.clock_east - last_rotated r
     < timedelta_minutes (retain_period_minutes r)
  /\ previous_key_hash r (datetime_now Scenario.clock_east) = EmptyString
  /\ verify_key_at h Scenario.clock_east r Scenario.S1 <> Ok true.
Proof.
  cbv zeta. repeat split; try reflexivity.
  apply is_raise_not_Ok, verify_key_dummy_previous. reflexivity.
Qed.

(** The same rotation on a host that keeps UTC: the previous slot is the
    old hash. *)
Lemma previous_key_kept_on_utc (h : Handler) :
  previous_key_hash
    (APIKeySchema.to_internal_model (Scenario.rotated h Scenario.clock_utc 10))
    (datetime_now Scenario.clock_utc)
  = APIKeySchema.key (Scenario.created h "ci").
Proof. reflexivity. Qed.

(** Five hours west of UTC the old secret is still accepted eleven minutes
    after a rotation with a retain period of ten minutes. *)
Lemma previous_key_accepted_west_of_utc :
  verify_key_at plain_handler Scenario.clock_west_later
    (APIKeySchema.to_internal_model
       (Scenario.rotated plain_handler Scenario.clock_west 10))
    Scenario.S1
  = Ok true.
Proof. vm_compute. reflexivity. Qed.

(** On a host that keeps UTC, inside the retain period both the old and the
    new secret are accepted; eleven minutes on the previous slot is the
    dummy value again. *)
Example both_secrets_inside_retain_period :
  let r := APIKeySchema.to_internal_model
             (Scenario.rotated plain_handler Scenario.clock_utc 10) in
  verify_key_at plain_handler Scenario.clock_utc r Scenario.S1 = Ok true
  /\ verify_key_at plain_handler Scenario.clock_utc r Scenario.S2 = Ok true
  /\ verify_key_at plain_handler Scenario.clock_utc_later r Scenario.S1
     = Raise unknown_hash.
Proof. vm_compute. repeat split. Qed.

(** A key that was never rotated has no previous hash: verifying its own
    secret raises as well. *)
Example fresh_key_verify_raises (h : Handler) :
  is_raise (verify_key_at h Scenario.clock_utc
              (APIKeySchema.to_internal_model (Scenario.created h "ci"))
              Scenario.S1) = true.
Proof. apply verify_key_dummy_previous. reflexivity. Qed.

(** C4, evaluated on the scenario of the specification (create "ci",
    [rotate(retain=0)], present the old secret at once): the previous hash
    is recorded and equals the old current hash, and for every handler the
    verification of the old secret raises where the claim has it return
    [False]. *)
Theorem rotate_zero_retain_old_secret_raises (h : Handler) :
  let old := Scenario.created h "ci" in
  let r := Scenario.rotated h Scenario.clock_utc 0 in
  APIKeySchema.previous_key r = Some (APIKeySchema.key old)
  /\ is_raise (verify_key_at h Scenario.clock_utc
                 (APIKeySchema.to_internal_model r) Scenario.S1) = true.
Proof.
  cbv zeta. split; [reflexivity |].
  apply verify_key_dummy_previous, previous_key_hash_no_retain. reflexivity.
Qed.

(** With the stand-in handler the exception is the context's
    [UnknownHashError]. *)
Lemma rotate_zero_retain_plain :
  verify_key_at plain_handler Scenario.clock_utc
    (APIKeySchema.to_internal_model
       (Scenario.rotated plain_handler Scenario.clock_utc 0))
    Scenario.S1
  = Raise unknown_hash.
Proof. vm_compute. reflexivity. Qed.

(** ** The [rotate] command *)

Lemma set_key_Ok (view : APIKeyResponseModel.t) (key : string) :
  APIKeyResponseModel.set_key view key
  = Ok (APIKeyResponseModel.with_key view
          (Some (b64encode (str_encode
                   (APIKey.json (APIKey.mk (APIKeyResponseModel.id view) key)))))).
Proof.
  unfold APIKeyResponseModel.set_key. rewrite encode_Ok. reflexivity.
Qed.

(** The command hands no retain period to the client: what it stores does
    not depend on its [retain] argument. *)
Lemma cli_rotate_store_independent (h : Handler) (c : Clock)
    (e : APIKeySchema.entropy) (st : Client.store) (name_or_id : string)
    (retain retain' : Z) :
  match cli.rotate_api_key h c e st name_or_id retain,
        cli.rotate_api_key h c e st name_or_id retain' with
  | Ok (st1, _), Ok (st2, _) => st1 = st2
  | Raise e1, Raise e2 => e1 = e2
  | _, _ => False
  end.
Proof.
  unfold cli.rotate_api_key.
  destruct (Client.rotate_api_key h c e st name_or_id None) as [[st' view] | []];
    reflexivity.
Qed.

(** C5, evaluated on the command line: the key "ci" is rotated with
    [--retain 10].  The command succeeds and announces that the previous key
    remains valid for ten minutes, the stored record has a retain period of
    zero, and for every handler the old secret presented at once is not
    accepted. *)
Theorem cli_rotate_drops_retain (h : Handler) :
  exists st' out r',
    cli.rotate_api_key h Scenario.clock_utc Scenario.entropy2
      [Scenario.created h "ci"] "ci" 10 = Ok (st', out)
    /\ In (cli.retain_message 10) out
    /\ Client.get st' "ci" = Some r'
    /\ APIKeySchema.retain_period r' = 0
    /\ verify_key_at h Scenario.clock_utc
         (APIKeySchema.to_internal_model r') Scenario.S1 <> Ok true.
Proof.
  unfold cli.rotate_api_key, Client.rotate_api_key.
  cbn [Client.get Client.matches Scenario.created APIKeySchema.from_request fst
       APIKeySchema.name Scenario.request APIKeyRequestModel.name String.eqb
       Ascii.eqb Bool.eqb orb].
  rewrite set_key_Ok, bind_Ok.
  eexists. eexists. eexists.
  split; [reflexivity |].
  split; [right; right; left; reflexivity |].
  split; [reflexivity |].
  split; [reflexivity |].
  apply is_raise_not_Ok, verify_key_dummy_previous, previous_key_hash_no_retain.
  reflexivity.
Qed.

(** ** Updates *)

Lemma update_frame (c : Clock) (self : APIKeySchema.t) (u : APIKeyUpdateModel.t) :
  let self' := APIKeySchema.update c self u in
  APIKeySchema.id self' = APIKeySchema.id self
  /\ APIKeySchema.key self' = APIKeySchema.key self
  /\ APIKeySchema.previous_key self' = APIKeySchema.previous_key self
  /\ APIKeySchema.retain_period self' = APIKeySchema.retain_period self
  /\ APIKeySchema.last_used self' = APIKeySchema.last_used self
  /\ APIKeySchema.last_rotated self' = APIKeySchema.last_rotated self
  /\ APIKeySchema.created self' = APIKeySchema.created self
  /\ APIKeySchema.updated self' = datetime_utcnow c.
Proof.
  cbv zeta. unfold APIKeySchema.update.
  destruct (APIKeyUpdateModel.name u) as [n |];
    [destruct (truthy_str (Some n)) |];
    (destruct (APIKeyUpdateModel.description u) as [d |];
       [destruct (truthy_str (Some d)) |]);
    destruct (APIKeyUpdateModel.active u); repeat split.
Qed.

(** A field that the update model holds as [None] keeps its value. *)
Lemma update_None_fields (c : Clock) (self : APIKeySchema.t)
    (u : APIKeyUpdateModel.t) :
  let self' := APIKeySchema.update c self u in
  (APIKeyUpdateModel.name u = None ->
     APIKeySchema.name self' = APIKeySchema.name self)
  /\ (APIKeyUpdateModel.description u = None ->
        APIKeySchema.description self' = APIKeySchema.description self)
  /\ (APIKeyUpdateModel.active u = None ->
        APIKeySchema.active self' = APIKeySchema.active self).
Proof.
  cbv zeta. unfold APIKeySchema.update.
  destruct (APIKeyUpdateModel.name u) as [n |];
    [destruct (truthy_str (Some n)) |];
    (destruct (APIKeyUpdateModel.description u) as [d |];
       [destruct (truthy_str (Some d)) |]);
    destruct (APIKeyUpdateModel.active u);
    repeat split; intros; try discriminate; reflexivity.
Qed.

(** A model built without [active] holds [True] for it. *)
Lemma init_omitted_active (n d : option (option string)) :
  APIKeyUpdateModel.active
    (APIKeyUpdateModel.init (APIKeyUpdateModel.mkFields n d None)) = Some true.
Proof. reflexivity. Qed.

(** C9, evaluated on a deactivated key and an update request that supplies
    a description and nothing else: the update model holds [True] for the
    omitted [active], and the update switches the key back on. *)
Theorem update_without_active_reactivates (h : Handler) :
  let r := Scenario.deactivated h in
  APIKeySchema.active r = false
  /\ APIKeyUpdateModel.active Scenario.describe_only = Some true
  /\ APIKeySchema.active
       (APIKeySchema.update Scenario.clock_utc_later r Scenario.describe_only)
     = true.
Proof. cbv zeta. repeat split. Qed.

(** ** The token codec *)

(** C6: for every id and every raw secret, [encode] returns a token, and
    [decode_api_key] of that token is the same id and raw secret. *)
Theorem decode_encode_roundtrip (id : UUID) (secret : string) :
  exists token,
    APIKey.encode (APIKey.mk id secret) = Ok token
    /\ APIKey.decode_api_key token = Ok (APIKey.mk id secret).
Proof.
  exists (b64encode (str_encode (APIKey.json (APIKey.mk id secret)))).
  split; [apply encode_Ok | apply decode_encoded].
Qed.

Lemma decode_api_key_cases (encoded_key : string) :
  (exists k, APIKey.decode_api_key encoded_key = Ok k)
  \/ APIKey.decode_api_key encoded_key = Raise (ValueError "Invalid API key.").
Proof.
  unfold APIKey.decode_api_key.
  destruct (APIKey.decode_api_key_body encoded_key) as [k | e];
    [left; exists k | right]; reflexivity.
Qed.

(** C7: for every input on which the decoding steps raise, be it in the
    base64 step, the UTF-8 step, the JSON step or the validation of the
    fields, [decode_api_key] raises the one [ValueError] with the fixed
    message, whatever the cause was. *)
Theorem decode_failure_is_generic (encoded_key : string) (cause : exn) :
  APIKey.decode_api_key_body encoded_key = Raise cause ->
  APIKey.decode_api_key encoded_key = Raise (ValueError "Invalid API key.").
Proof.
  intros H. unfold APIKey.decode_api_key. rewrite H. reflexivity.
Qed.

Lemma decode_failure_is_generic_witness :
  APIKey.decode_api_key_body "eyJpZCI6" = Raise (JSONDecodeError "Expecting value")
  /\ APIKey.decode_api_key "eyJpZCI6" = Raise (ValueError "Invalid API key.").
Proof.
  split; [reflexivity |].
  apply (decode_failure_is_generic "eyJpZCI6" (JSONDecodeError "Expecting value")).
  reflexivity.
Defined.

(** The causes differ, the error does not. *)
Example decode_truncated :
  APIKey.decode_api_key_body "eyJpZCI" = Raise incorrect_padding
  /\ APIKey.decode_api_key "eyJpZCI"  = Raise (ValueError "Invalid API key.").
Proof. split; reflexivity. Qed.

Example decode_wrong_encoding :
  APIKey.decode_api_key_body "/w=="
    = Raise (UnicodeDecodeError "unexpected end of data")
  /\ APIKey.decode_api_key "/w==" = Raise (ValueError "Invalid API key.").
Proof. split; reflexivity. Qed.

Example decode_missing_field :
  APIKey.decode_api_key_body "eyJrZXkiOiAiYWJjIn0="
    = Raise (ValidationError "id: field required")
  /\ APIKey.decode_api_key "eyJrZXkiOiAiYWJjIn0="
     = Raise (ValueError "Invalid API key.").
Proof. split; reflexivity. Qed.

Example decode_not_base64 :
  APIKey.decode_api_key EmptyString = Raise (ValueError "Invalid API key.").
Proof. reflexivity. Qed.

(** Lengths: a token is longer than the secret inside it. *)

Lemma length_app (s t : string) :
  String.length (s ++ t) = (String.length s + String.length t)%nat.
Proof. induction s as [| c s IH]; simpl; [reflexivity | now rewrite IH]. Qed.

Lemma json_escape_char_length (c : ascii) :
  (1 <= String.length (json_escape_char c))%nat.
Proof. each_ascii c; cbn; lia. Qed.

Lemma json_escape_length (s : string) :
  (String.length s <= String.length (json_escape s))%nat.
Proof.
  induction s as [| c s IH]; simpl; [lia |].
  rewrite length_app. pose proof (json_escape_char_length c). lia.
Qed.

Lemma json_length (k : APIKey.t) :
  (String.length (APIKey.key k) < String.length (APIKey.json k))%nat.
Proof.
  rewrite APIKey_json_text.
  generalize (UUID_str (APIKey.id k)). intros U.
  pose proof (json_escape_length (APIKey.key k)).
  repeat (cbn [String.length append]; rewrite ?length_app).
  lia.
Qed.

Lemma str_encode_length (s : string) :
  (String.length s <= String.length (str_encode s))%nat.
Proof.
  induction s as [| c s IH]; simpl; [lia |].
  destruct (is_ascii c); simpl; lia.
Qed.

Lemma b64encode_length (bs : string) :
  (String.length bs <= String.length (b64encode bs))%nat.
Proof.
  induction bs as [| a | a b | a b c r IH] using string_ind3;
    cbn [b64encode String.length]; lia.
Qed.

Lemma token_longer_than_secret (k : APIKey.t) :
  (String.length (APIKey.key k)
   < String.length (b64encode (str_encode (APIKey.json k))))%nat.
Proof.
  pose proof (json_length k).
  pose proof (str_encode_length (APIKey.json k)).
  pose proof (b64encode_length (str_encode (APIKey.json k))).
  lia.
Qed.

Lemma with_key_fields (v : APIKeyResponseModel.t) (k : option string) :
  APIKeyResponseModel.key (APIKeyResponseModel.with_key v k) = k
  /\ same_but_key v (APIKeyResponseModel.with_key v k).
Proof. unfold same_but_key. repeat split. Qed.

(** C10: for every response record and every raw secret, [set_key] returns
    a record whose [key] field holds the encoded token of the record's id
    and the raw secret and not the raw secret itself, whatever the field
    held before; decoding the stored field gives the record's id together
    with the raw secret, and every other field is as it was. *)
Theorem set_key_stores_token (view : APIKeyResponseModel.t) (raw : string) :
  exists view' token,
    APIKeyResponseModel.set_key view raw = Ok view'
    /\ APIKeyResponseModel.key view' = Some token
    /\ APIKey.encode (APIKey.mk (APIKeyResponseModel.id view) raw) = Ok token
    /\ token <> raw
    /\ APIKey.decode_api_key token
       = Ok (APIKey.mk (APIKeyResponseModel.id view') raw)
    /\ same_but_key view view'.
Proof.
  set (token := b64encode (str_encode
                  (APIKey.json (APIKey.mk (APIKeyResponseModel.id view) raw)))).
  exists (APIKeyResponseModel.with_key view (Some token)), token.
  destruct (with_key_fields view (Some token)) as [K F].
  split; [apply set_key_Ok |].
  split; [exact K |].
  split; [apply encode_Ok |].
  split.
  - intros E.
    pose proof (token_longer_than_secret
                  (APIKey.mk (APIKeyResponseModel.id view) raw)) as L.
    fold token in L. rewrite E in L. cbn [APIKey.key] in L. lia.
  - split; [| exact F].
    destruct F as [Fid _]. rewrite Fid. apply decode_encoded.
Qed.

(** The token of the scenario key, and its decoding. *)
Example token_of_scenario_key :
  APIKey.encode (APIKey.mk Scenario.key_id "s3cr3t")
  = Ok "eyJpZCI6ICIxMjM0NTY3OC05YWJjLWRlZjAtMTIzNC01Njc4OWFiY2RlZjAiLCAia2V5IjogInMzY3IzdCJ9".
Proof. vm_compute. reflexivity. Qed.

(** * Further properties of the code *)

(** ** Verification, as the code behaves *)

Lemma CryptContext_verify_Ok (h : Handler) (secret hash : string) (b : bool) :
  CryptContext_verify h secret (Some hash) = Ok b ->
  bcrypt_identify hash = true /\ handler_verify h secret hash = Ok b.
Proof.
  unfold CryptContext_verify.
  destruct (bcrypt_identify hash); [intros E; split; [reflexivity | exact E] |].
  discriminate.
Qed.

Lemma not_identified_empty : bcrypt_identify EmptyString = false.
Proof. reflexivity. Qed.

(** X1: an inactive record is never verified, whatever the secret and the
    time: the call raises [UnknownHashError] at its first verification. *)
Theorem inactive_key_raises (h : Handler) (r : t) (presented : string)
    (now : datetime) :
  active r = false -> verify_key h r presented now = Raise unknown_hash.
Proof.
  intros E. unfold verify_key, current_key_hash. rewrite E.
  destruct (key r); reflexivity.
Qed.

Lemma inactive_key_raises_witness :
  active (APIKeySchema.to_internal_model (Scenario.deactivated plain_handler))
    = false
  /\ verify_key plain_handler
       (APIKeySchema.to_internal_model (Scenario.deactivated plain_handler))
       Scenario.S1 Scenario.t0
     = Raise unknown_hash.
Proof.
  split; [reflexivity |].
  apply (inactive_key_raises plain_handler
           (APIKeySchema.to_internal_model (Scenario.deactivated plain_handler))
           Scenario.S1 Scenario.t0).
  reflexivity.
Defined.

(** X2: a record as [from_request] makes it has no previous key, so
    [verify_key] raises for every handler, secret and time until the key is
    rotated, the secret returned by [from_request] included. *)
Theorem new_key_cannot_be_verified (h : Handler) (c : Clock)
    (e : APIKeySchema.entropy) (new_id : UUID) (request : APIKeyRequestModel.t)
    (presented : string) (now : datetime) :
  let created := APIKeySchema.from_request h c e new_id request in
  is_raise (verify_key h (APIKeySchema.to_internal_model (fst created))
              presented now) = true
  /\ is_raise (verify_key h (APIKeySchema.to_internal_model (fst created))
                 (snd created) now) = true.
Proof.
  cbv zeta. split.
  - unfold verify_key.
    destruct (CryptContext_verify h presented _); reflexivity.
  - unfold verify_key.
    destruct (CryptContext_verify h _ (Some (current_key_hash _))); reflexivity.
Qed.

(** X3: [verify_key] answers (rather than raises) only if the record is
    active, both hash slots hold a hash the context identifies, the retain
    period is positive and the reading of the clock is inside the retain
    period. *)
Theorem verify_key_answers_only_inside_retain_period
    (h : Handler) (r : t) (presented : string) (now : datetime) (b : bool) :
  verify_key h r presented now = Ok b ->
  active r = true
  /\ (exists k, key r = Some k /\ bcrypt_identify k = true)
  /\ (exists p, previous_key r = Some p /\ bcrypt_identify p = true)
  /\ 0 < retain_period_minutes r
  /\ now - last_rotated r < timedelta_minutes (retain_period_minutes r).
Proof.
  unfold verify_key. intros H.
  destruct (CryptContext_verify h presented (Some (current_key_hash r)))
    as [b1 |] eqn:E1; [| discriminate H].
  destruct (CryptContext_verify h presented (Some (previous_key_hash r now)))
    as [b2 |] eqn:E2; [| discriminate H].
  apply CryptContext_verify_Ok in E1 as [I1 _].
  apply CryptContext_verify_Ok in E2 as [I2 _].
  unfold current_key_hash in I1. unfold previous_key_hash in I2.
  destruct (key r) as [k |]; [| discriminate I1].
  destruct (active r); [| discriminate I1].
  destruct (previous_key r) as [p |]; [| discriminate I2].
  cbn [andb] in I2.
  destruct (Z.ltb_spec 0 (retain_period_minutes r)); [| discriminate I2].
  destruct (Z.ltb_spec (now - last_rotated r)
              (timedelta_minutes (retain_period_minutes r)));
    [| discriminate I2].
  repeat split; try assumption; eexists; split; try reflexivity; assumption.
Qed.

Lemma verify_key_answers_only_inside_retain_period_witness :
  let r := APIKeySchema.to_internal_model
             (Scenario.rotated plain_handler Scenario.clock_utc 10) in
  let now := datetime_now Scenario.clock_utc in
  verify_key plain_handler r Scenario.S1 now = Ok true
  /\ (active r = true
      /\ (exists k, key r = Some k /\ bcrypt_identify k = true)
      /\ (exists p, previous_key r = Some p /\ bcrypt_identify p = true)
      /\ 0 < retain_period_minutes r
      /\ now - last_rotated r < timedelta_minutes (retain_period_minutes r)).
Proof.
  cbv zeta. split; [vm_compute; reflexivity |].
  apply (verify_key_answers_only_inside_retain_period plain_handler
           (APIKeySchema.to_internal_model
              (Scenario.rotated plain_handler Scenario.clock_utc 10))
           Scenario.S1 (datetime_now Scenario.clock_utc) true).
  vm_compute. reflexivity.
Defined.

(** ** Rotation and the retain period *)

(** X4: create a key, rotate it with a positive retain period that
    [timedelta] can represent, and present a secret on a host that keeps
    UTC before the retain period is over.  If the context identifies the
    two stored hashes, the handler verifies each secret against its own
    hash, and it answers when each secret is checked against the other
    hash, then the old secret and the new secret are both accepted. *)
Theorem rotate_keeps_both_secrets (h : Handler) (c0 c1 c2 : Clock)
    (e1 e2 : APIKeySchema.entropy) (new_id : UUID)
    (request : APIKeyRequestModel.t) (retain : Z) (b12 b21 : bool) :
  bcrypt_identify
    (APIKeySchema._get_hashed_key h e1 (APIKeySchema._generate_jwt_secret_key e1))
    = true ->
  bcrypt_identify
    (APIKeySchema._get_hashed_key h e2 (APIKeySchema._generate_jwt_secret_key e2))
    = true ->
  handler_verify h (APIKeySchema._generate_jwt_secret_key e1)
    (APIKeySchema._get_hashed_key h e1 (APIKeySchema._generate_jwt_secret_key e1))
    = Ok true ->
  handler_verify h (APIKeySchema._generate_jwt_secret_key e2)
    (APIKeySchema._get_hashed_key h e2 (APIKeySchema._generate_jwt_secret_key e2))
    = Ok true ->
  handler_verify h (APIKeySchema._generate_jwt_secret_key e1)
    (APIKeySchema._get_hashed_key h e2 (APIKeySchema._generate_jwt_secret_key e2))
    = Ok b12 ->
  handler_verify h (APIKeySchema._generate_jwt_secret_key e2)
    (APIKeySchema._get_hashed_key h e1 (APIKeySchema._generate_jwt_secret_key e1))
    = Ok b21 ->
  0 < retain ->
  timedelta_representable retain ->
  utcoffset c2 = 0 ->
  instant c2 - instant c1 < timedelta_minutes retain ->
  let created := APIKeySchema.from_request h c0 e1 new_id request in
  let rotated := APIKeySchema.rotate h c1 e2 (fst created)
                   (APIKeyRotateRequestModel.mk retain) in
  let r := APIKeySchema.to_internal_model (fst rotated) in
  verify_key_at h c2 r (snd created) = Ok true
  /\ verify_key_at h c2 r (snd rotated) = Ok true.
Proof.
  intros I1 I2 V11 V22 V12 V21 Hretain _ Hutc Hin. cbv zeta.
  unfold verify_key_at, datetime_now. rewrite Hutc, Z.add_0_r.
  set (r := APIKeySchema.to_internal_model
              (fst (APIKeySchema.rotate h c1 e2
                      (fst (APIKeySchema.from_request h c0 e1 new_id request))
                      (APIKeyRotateRequestModel.mk retain)))).
  assert (P : previous_key_hash r (instant c2)
              = APIKeySchema._get_hashed_key h e1
                  (APIKeySchema._generate_jwt_secret_key e1)).
  { unfold previous_key_hash, r.
    cbn [APIKeySchema.to_internal_model APIKeySchema.rotate
         APIKeySchema.from_request fst previous_key active retain_period_minutes
         last_rotated APIKeySchema.previous_key APIKeySchema.active
         APIKeySchema.retain_period APIKeySchema.last_rotated
         APIKeySchema.set_last_rotated APIKeySchema.set_key
         APIKeySchema.set_retain_period APIKeySchema.set_previous_key
         APIKeySchema.set_updated APIKeySchema.updated APIKeySchema.key
         APIKeyRotateRequestModel.retain_period_minutes andb].
    unfold datetime_utcnow.
    destruct (Z.ltb_spec 0 retain); [| lia].
    destruct (Z.ltb_spec (instant c2 - instant c1) (timedelta_minutes retain));
      [reflexivity | lia]. }
  assert (C : current_key_hash r
              = APIKeySchema._get_hashed_key h e2
                  (APIKeySchema._generate_jwt_secret_key e2)) by reflexivity.
  change (snd (APIKeySchema.from_request h c0 e1 new_id request))
    with (APIKeySchema._generate_jwt_secret_key e1).
  change (snd (APIKeySchema.rotate h c1 e2
                 (fst (APIKeySchema.from_request h c0 e1 new_id request))
                 (APIKeyRotateRequestModel.mk retain)))
    with (APIKeySchema._generate_jwt_secret_key e2).
  split.
  - rewrite (verify_key_both_answers h r _ (instant c2) b12 true).
    + now rewrite orb_true_r.
    + rewrite C. unfold CryptContext_verify. now rewrite I2.
    + rewrite P. unfold CryptContext_verify. now rewrite I1.
  - rewrite (verify_key_both_answers h r _ (instant c2) true b21).
    + reflexivity.
    + rewrite C. unfold CryptContext_verify. now rewrite I2.
    + rewrite P. unfold CryptContext_verify. now rewrite I1.
Qed.

Lemma rotate_keeps_both_secrets_witness :
  let created := APIKeySchema.from_request plain_handler Scenario.clock0
                   Scenario.entropy1 Scenario.key_id (Scenario.request "ci") in
  let rotated := APIKeySchema.rotate plain_handler Scenario.clock_utc
                   Scenario.entropy2 (fst created)
                   (APIKeyRotateRequestModel.mk 10) in
  let r := APIKeySchema.to_internal_model (fst rotated) in
  verify_key_at plain_handler Scenario.clock_utc r (snd created) = Ok true
  /\ verify_key_at plain_handler Scenario.clock_utc r (snd rotated) = Ok true.
Proof.
  apply (rotate_keeps_both_secrets plain_handler Scenario.clock0
           Scenario.clock_utc Scenario.clock_utc Scenario.entropy1
           Scenario.entropy2 Scenario.key_id (Scenario.request "ci") 10
           false false).
  - reflexivity.
  - reflexivity.
  - reflexivity.
  - reflexivity.
  - reflexivity.
  - reflexivity.
  - reflexivity.
  - unfold timedelta_representable. split; vm_compute; discriminate.
  - reflexivity.
  - reflexivity.
Defined.

(** X5: once the reading of the clock is a retain period or more past the
    rotation, [verify_key] raises for every secret, the new one included;
    the comparison is strict, so this holds from the exact end of the
    period on. *)
Theorem after_retain_period_nothing_verifies (h : Handler) (c1 c2 : Clock)
    (e : APIKeySchema.entropy) (self : APIKeySchema.t) (retain : Z)
    (presented : string) :
  timedelta_minutes retain <= datetime_now c2 - datetime_utcnow c1 ->
  is_raise
    (verify_key_at h c2
       (APIKeySchema.to_internal_model
          (fst (APIKeySchema.rotate h c1 e self
                  (APIKeyRotateRequestModel.mk retain))))
       presented) = true.
Proof.
  intros Hout. unfold verify_key_at. apply verify_key_dummy_previous.
  unfold previous_key_hash.
  cbn [APIKeySchema.to_internal_model APIKeySchema.rotate fst previous_key active
       retain_period_minutes last_rotated APIKeySchema.previous_key
       APIKeySchema.active APIKeySchema.retain_period APIKeySchema.last_rotated
       APIKeySchema.set_last_rotated APIKeySchema.set_key
       APIKeySchema.set_retain_period APIKeySchema.set_previous_key
       APIKeySchema.set_updated APIKeySchema.updated
       APIKeyRotateRequestModel.retain_period_minutes].
  destruct (Z.ltb_spec (datetime_now c2 - datetime_utcnow c1)
              (timedelta_minutes retain)); [lia |].
  destruct (APIKeySchema.active self && (0 <? retain)); reflexivity.
Qed.

Lemma after_retain_period_nothing_verifies_witness :
  timedelta_minutes 10
    <= datetime_now Scenario.clock_utc_later - datetime_utcnow Scenario.clock_utc
  /\ is_raise
       (verify_key_at plain_handler Scenario.clock_utc_later
          (APIKeySchema.to_internal_model
             (fst (APIKeySchema.rotate plain_handler Scenario.clock_utc
                     Scenario.entropy2 (Scenario.created plain_handler "ci")
                     (APIKeyRotateRequestModel.mk 10))))
          Scenario.S2) = true.
Proof.
  split; [vm_compute; discriminate |].
  apply (after_retain_period_nothing_verifies plain_handler Scenario.clock_utc
           Scenario.clock_utc_later Scenario.entropy2
           (Scenario.created plain_handler "ci") 10 Scenario.S2).
  vm_compute. discriminate.
Defined.

(** X6: a rotation that asks for a retain period of zero or less leaves no
    window at all: afterwards [verify_key] raises for every secret at every
    time. *)
Theorem nonpositive_retain_nothing_verifies (h : Handler) (c : Clock)
    (e : APIKeySchema.entropy) (self : APIKeySchema.t) (retain : Z)
    (presented : string) (now : datetime) :
  retain <= 0 ->
  is_raise
    (verify_key h
       (APIKeySchema.to_internal_model
          (fst (APIKeySchema.rotate h c e self
                  (APIKeyRotateRequestModel.mk retain))))
       presented now) = true.
Proof.
  intros Hneg. apply verify_key_dummy_previous. unfold previous_key_hash.
  cbn [APIKeySchema.to_internal_model APIKeySchema.rotate fst previous_key active
       retain_period_minutes last_rotated APIKeySchema.previous_key
       APIKeySchema.active APIKeySchema.retain_period APIKeySchema.last_rotated
       APIKeySchema.set_last_rotated APIKeySchema.set_key
       APIKeySchema.set_retain_period APIKeySchema.set_previous_key
       APIKeySchema.set_updated APIKeySchema.updated
       APIKeyRotateRequestModel.retain_period_minutes].
  destruct (Z.ltb_spec 0 retain); [lia |].
  rewrite andb_false_r. reflexivity.
Qed.

Lemma nonpositive_retain_nothing_verifies_witness :
  -5 <= 0
  /\ is_raise
       (verify_key plain_handler
          (APIKeySchema.to_internal_model
             (fst (APIKeySchema.rotate plain_handler Scenario.clock_utc
                     Scenario.entropy2 (Scenario.created plain_handler "ci")
                     (APIKeyRotateRequestModel.mk (-5)))))
          Scenario.S1 Scenario.t0) = true.
Proof.
  split; [lia |].
  apply (nonpositive_retain_nothing_verifies plain_handler Scenario.clock_utc
           Scenario.entropy2 (Scenario.created plain_handler "ci") (-5)
           Scenario.S1 Scenario.t0).
  lia.
Defined.

(** X7: expiry is final as the clock advances: if the previous slot is the
    dummy value at one reading of the clock, it is the dummy value at every
    later reading. *)
Theorem previous_key_stays_expired (r : t) (now later : datetime) :
  now <= later ->
  previous_key_hash r now = EmptyString ->
  previous_key_hash r later = EmptyString.
Proof.
  unfold previous_key_hash. intros Hle.
  destruct (previous_key r) as [p |]; [| reflexivity].
  destruct (active r && (0 <? retain_period_minutes r)); [| reflexivity].
  destruct (Z.ltb_spec (now - last_rotated r)
              (timedelta_minutes (retain_period_minutes r))).
  - intros Hp. subst p.
    destruct (later - last_rotated r <? timedelta_minutes (retain_period_minutes r));
      reflexivity.
  - intros _.
    destruct (Z.ltb_spec (later - last_rotated r)
                (timedelta_minutes (retain_period_minutes r)));
      [lia | reflexivity].
Qed.

Lemma previous_key_stays_expired_witness :
  let r := APIKeySchema.to_internal_model
             (Scenario.rotated plain_handler Scenario.clock_utc 10) in
  datetime_now Scenario.clock_utc_later <= datetime_now Scenario.clock_utc_later + 1
  /\ previous_key_hash r (datetime_now Scenario.clock_utc_later) = EmptyString
  /\ previous_key_hash r (datetime_now Scenario.clock_utc_later + 1) = EmptyString.
Proof.
  cbv zeta. split; [lia |]. split; [reflexivity |].
  apply (previous_key_stays_expired
           (APIKeySchema.to_internal_model
              (Scenario.rotated plain_handler Scenario.clock_utc 10))
           (datetime_now Scenario.clock_utc_later)
           (datetime_now Scenario.clock_utc_later + 1)).
  - lia.
  - reflexivity.
Defined.



(** X9: [rotate] moves the current hash to the previous slot, stores the
    hash of the secret it returns, stamps [last_rotated] and [updated] with
    the UTC instant, and leaves the identity, the name, the description,
    the owner, [created], [last_used] and the [active] flag as they were:
    rotating a deactivated key does not switch it on. *)
Theorem rotate_frame (h : Handler) (c : Clock) (e : APIKeySchema.entropy)
    (self : APIKeySchema.t) (rotate_request : APIKeyRotateRequestModel.t) :
  let res := APIKeySchema.rotate h c e self rotate_request in
  APIKeySchema.previous_key (fst res) = Some (APIKeySchema.key self)
  /\ APIKeySchema.key (fst res)
     = CryptContext_hash h (APIKeySchema.salt e) (snd res)
  /\ APIKeySchema.last_rotated (fst res) = datetime_utcnow c
  /\ APIKeySchema.updated (fst res) = datetime_utcnow c
  /\ APIKeySchema.id (fst res) = APIKeySchema.id self
  /\ APIKeySchema.name (fst res) = APIKeySchema.name self
  /\ APIKeySchema.description (fst res) = APIKeySchema.description self
  /\ APIKeySchema.workspace_id (fst res) = APIKeySchema.workspace_id self
  /\ APIKeySchema.user_id (fst res) = APIKeySchema.user_id self
  /\ APIKeySchema.created (fst res) = APIKeySchema.created self
  /\ APIKeySchema.last_used (fst res) = APIKeySchema.last_used self
  /\ APIKeySchema.active (fst res) = APIKeySchema.active self.
Proof. cbv zeta. repeat split. Qed.

(** X10: only two hashes are kept.  After two rotations the record holds
    the hashes of the two secrets the rotations returned and nothing of
    what it held before: the result does not depend on the hashes of the
    record that was rotated. *)
Theorem rotate_twice_drops_oldest (h : Handler) (c1 c2 : Clock)
    (e1 e2 : APIKeySchema.entropy) (self : APIKeySchema.t)
    (req1 req2 : APIKeyRotateRequestModel.t)
    (other_key : string) (other_previous : option string) :
  let twice x :=
    APIKeySchema.rotate h c2 e2 (fst (APIKeySchema.rotate h c1 e1 x req1)) req2 in
  APIKeySchema.key (fst (twice self))
    = CryptContext_hash h (APIKeySchema.salt e2) (APIKeySchema.token_hex_32 e2)
  /\ APIKeySchema.previous_key (fst (twice self))
     = Some (CryptContext_hash h (APIKeySchema.salt e1)
               (APIKeySchema.token_hex_32 e1))
  /\ twice (APIKeySchema.set_previous_key
              (APIKeySchema.set_key self other_key) other_previous)
     = twice self.
Proof. cbv zeta. repeat split. Qed.

(** ** Updates *)

(** X11: an update cannot blank the name or the description: afterwards
    each of them is what it was, or the non-empty text the update model
    carries. *)
Theorem update_keeps_or_sets_nonempty (c : Clock) (self : APIKeySchema.t)
    (u : APIKeyUpdateModel.t) :
  let self' := APIKeySchema.update c self u in
  (APIKeySchema.name self' = APIKeySchema.name self
   \/ (APIKeyUpdateModel.name u = Some (APIKeySchema.name self')
       /\ APIKeySchema.name self' <> EmptyString))
  /\ (APIKeySchema.description self' = APIKeySchema.description self
      \/ (APIKeyUpdateModel.description u = Some (APIKeySchema.description self')
          /\ APIKeySchema.description self' <> EmptyString)).
Proof.
  cbv zeta. unfold APIKeySchema.update, truthy_str.
  destruct (APIKeyUpdateModel.name u) as [n |];
    [destruct (String.eqb_spec n EmptyString) |];
    (destruct (APIKeyUpdateModel.description u) as [d |];
       [destruct (String.eqb_spec d EmptyString) |]);
    destruct (APIKeyUpdateModel.active u);
    cbn; split;
      (solve [left; reflexivity] || (right; split; [reflexivity | assumption])).
Qed.

(** X12: applying the same update a second time changes nothing. *)
Theorem update_idempotent (c : Clock) (self : APIKeySchema.t)
    (u : APIKeyUpdateModel.t) :
  APIKeySchema.update c (APIKeySchema.update c self u) u
  = APIKeySchema.update c self u.
Proof.
  unfold APIKeySchema.update.
  destruct (APIKeyUpdateModel.name u) as [n |];
    [destruct (truthy_str (Some n)) |];
    (destruct (APIKeyUpdateModel.description u) as [d |];
       [destruct (truthy_str (Some d)) |]);
    destruct (APIKeyUpdateModel.active u); reflexivity.
Qed.

(** X13: an update that carries [active = False] blocks the key: whatever
    else the update carries, [verify_key] on the updated record raises for
    every secret at every time. *)
Theorem deactivation_blocks_verification (h : Handler) (c : Clock)
    (self : APIKeySchema.t) (u : APIKeyUpdateModel.t) (presented : string)
    (now : datetime) :
  APIKeyUpdateModel.active u = Some false ->
  verify_key h (APIKeySchema.to_internal_model (APIKeySchema.update c self u))
    presented now
  = Raise unknown_hash.
Proof.
  intros E. apply verify_key_dummy_current.
  unfold current_key_hash, APIKeySchema.update. rewrite E.
  destruct (APIKeyUpdateModel.name u) as [n |];
    [destruct (truthy_str (Some n)) |];
    (destruct (APIKeyUpdateModel.description u) as [d |];
       [destruct (truthy_str (Some d)) |]);
    reflexivity.
Qed.

Lemma deactivation_blocks_verification_witness :
  APIKeyUpdateModel.active Scenario.deactivate = Some false
  /\ verify_key plain_handler
       (APIKeySchema.to_internal_model
          (APIKeySchema.update Scenario.clock_utc
             (Scenario.rotated plain_handler Scenario.clock_utc 10)
             Scenario.deactivate))
       Scenario.S2 (datetime_now Scenario.clock_utc)
     = Raise unknown_hash.
Proof.
  split; [reflexivity |].
  apply (deactivation_blocks_verification plain_handler Scenario.clock_utc
           (Scenario.rotated plain_handler Scenario.clock_utc 10)
           Scenario.deactivate Scenario.S2 (datetime_now Scenario.clock_utc)).
  reflexivity.
Defined.

(** X19: an update that does not carry [active] has no effect on
    verification: renaming a key or changing its description leaves the
    answer of [verify_key] what it was, for every secret and time. *)
Theorem update_without_active_keeps_verification (h : Handler) (c : Clock)
    (self : APIKeySchema.t) (u : APIKeyUpdateModel.t) (presented : string)
    (now : datetime) :
  APIKeyUpdateModel.active u = None ->
  verify_key h (APIKeySchema.to_internal_model (APIKeySchema.update c self u))
    presented now
  = verify_key h (APIKeySchema.to_internal_model self) presented now.
Proof.
  intros E. unfold APIKeySchema.update. rewrite E.
  destruct (APIKeyUpdateModel.name u) as [n |];
    [destruct (truthy_str (Some n)) |];
    (destruct (APIKeyUpdateModel.description u) as [d |];
       [destruct (truthy_str (Some d)) |]);
    reflexivity.
Qed.

Lemma update_without_active_keeps_verification_witness :
  let rename := APIKeyUpdateModel.mk (Some "ci-new"%string) None None in
  let r := Scenario.rotated plain_handler Scenario.clock_utc 10 in
  APIKeyUpdateModel.active rename = None
  /\ verify_key plain_handler
       (APIKeySchema.to_internal_model
          (APIKeySchema.update Scenario.clock_utc r rename))
       Scenario.S1 (datetime_now Scenario.clock_utc)
     = verify_key plain_handler (APIKeySchema.to_internal_model r)
         Scenario.S1 (datetime_now Scenario.clock_utc).
Proof.
  cbv zeta. split; [reflexivity |].
  apply (update_without_active_keeps_verification plain_handler
           Scenario.clock_utc
           (Scenario.rotated plain_handler Scenario.clock_utc 10)
           (APIKeyUpdateModel.mk (Some "ci-new"%string) None None)
           Scenario.S1 (datetime_now Scenario.clock_utc)).
  reflexivity.
Defined.

(** X14: [internal_update] is [update] followed by the optional stamp: with
    [update_last_used] set, [last_used] becomes the UTC instant of the
    update, the same value as [updated]; otherwise it keeps its value.  The
    hashes, the retain period and [last_rotated] are never touched. *)
Theorem internal_update_last_used (c : Clock) (self : APIKeySchema.t)
    (upd : APIKeyInternalUpdateModel.t) :
  let self' := APIKeySchema.internal_update c self upd in
  let plain := APIKeySchema.update c self (APIKeyInternalUpdateModel.base upd) in
  APIKeySchema.last_used self'
    = (if APIKeyInternalUpdateModel.update_last_used upd
       then datetime_utcnow c else APIKeySchema.last_used self)
  /\ APIKeySchema.updated self' = datetime_utcnow c
  /\ APIKeySchema.set_last_used self' (APIKeySchema.last_used self) = plain
  /\ APIKeySchema.key self' = APIKeySchema.key self
  /\ APIKeySchema.previous_key self' = APIKeySchema.previous_key self
  /\ APIKeySchema.retain_period self' = APIKeySchema.retain_period self
  /\ APIKeySchema.last_rotated self' = APIKeySchema.last_rotated self.
Proof.
  cbv zeta. unfold APIKeySchema.internal_update.
  pose proof (update_frame c self (APIKeyInternalUpdateModel.base upd)) as F.
  cbv zeta in F. destruct F as [_ [Fk [Fp [Fr [Fu [Fl [_ Fd]]]]]]].
  destruct (APIKeySchema.update c self (APIKeyInternalUpdateModel.base upd))
    as [i n d k p r a lu lr w us cr up] eqn:E.
  cbn in Fk, Fp, Fr, Fu, Fl, Fd. subst.
  destruct (APIKeyInternalUpdateModel.update_last_used upd); cbn;
    repeat split; reflexivity.
Qed.

(** ** Tokens *)

(** X15: a token determines the key: two keys with the same token have the
    same id and the same secret. *)
Theorem encode_injective (k1 k2 : APIKey.t) :
  APIKey.encode k1 = APIKey.encode k2 -> k1 = k2.
Proof.
  rewrite !encode_Ok. intros E.
  assert (T : b64encode (str_encode (APIKey.json k1))
              = b64encode (str_encode (APIKey.json k2))) by congruence.
  pose proof (decode_encoded k1) as D1.
  rewrite T, decode_encoded in D1. congruence.
Qed.

Lemma encode_injective_witness :
  APIKey.encode (APIKey.mk Scenario.key_id Scenario.S1)
    = APIKey.encode (APIKey.mk Scenario.key_id Scenario.S1)
  /\ APIKey.mk Scenario.key_id Scenario.S1 = APIKey.mk Scenario.key_id Scenario.S1.
Proof.
  split; [reflexivity |].
  apply (encode_injective (APIKey.mk Scenario.key_id Scenario.S1)
           (APIKey.mk Scenario.key_id Scenario.S1)).
  reflexivity.
Defined.

Lemma b64encode_length_groups (bs : string) :
  exists q, String.length (b64encode bs) = (4 * q)%nat.
Proof.
  induction bs as [| a | a b | a b c r [q IH]] using string_ind3;
    cbn [b64encode String.length].
  - exists 0%nat. reflexivity.
  - exists 1%nat. reflexivity.
  - exists 1%nat. reflexivity.
  - exists (S q). rewrite IH. lia.
Qed.

(** X16: the token of every key is transport safe: it is made of
    characters of the base64 alphabet and the pad only, all of them ASCII,
    in groups of four, and it is longer than the secret it carries. *)
Theorem token_is_base64_text (k : APIKey.t) :
  exists token,
    APIKey.encode k = Ok token
    /\ string_forallb (fun ch => is_b64_char ch && is_ascii ch) token = true
    /\ (exists q, String.length token = (4 * q)%nat)
    /\ (String.length (APIKey.key k) < String.length token)%nat.
Proof.
  exists (b64encode (str_encode (APIKey.json k))).
  split; [apply encode_Ok |].
  split; [apply b64encode_chars |].
  split; [apply b64encode_length_groups | apply token_longer_than_secret].
Qed.

(** X17: setting the key of a response a second time replaces the token
    of the first.  The call returns; the [key] field of the result holds
    the token of the record's id and the second secret, which decodes to
    them; every other field is what it was before the first call; and the
    result is the one of setting the second key alone. *)
Theorem set_key_overwrites (view : APIKeyResponseModel.t) (k1 k2 : string) :
  exists view2 token2,
    (v1 <- APIKeyResponseModel.set_key view k1 ;;
     APIKeyResponseModel.set_key v1 k2) = Ok view2
    /\ APIKeyResponseModel.set_key view k2 = Ok view2
    /\ APIKeyResponseModel.key view2 = Some token2
    /\ APIKey.encode (APIKey.mk (APIKeyResponseModel.id view) k2) = Ok token2
    /\ APIKey.decode_api_key token2
       = Ok (APIKey.mk (APIKeyResponseModel.id view) k2)
    /\ same_but_key view view2.
Proof.
  set (token2 := b64encode (str_encode
                   (APIKey.json (APIKey.mk (APIKeyResponseModel.id view) k2)))).
  exists (APIKeyResponseModel.with_key view (Some token2)), token2.
  destruct (with_key_fields view (Some token2)) as [K F].
  split.
  - rewrite (set_key_Ok view k1), bind_Ok, set_key_Ok.
    destruct (with_key_fields view
                (Some (b64encode (str_encode
                         (APIKey.json (APIKey.mk (APIKeyResponseModel.id view) k1))))))
      as [_ [Fid _]].
    rewrite Fid. fold token2.
    destruct view; reflexivity.
  - split; [apply set_key_Ok |].
    split; [exact K |].
    split; [apply encode_Ok |].
    split; [apply decode_encoded | exact F].
Qed.

(** ** The [delete] command *)

(** X18: nothing is deleted without consent.  The client is called
    exactly when [--yes] is given or the confirmation is accepted: a
    declined confirmation returns the store as it was and writes the
    cancellation, for every client.  Otherwise the outcome is the client's:
    its new store with the line that the key was deleted (and no
    confirmation asked under [--yes]); a [KeyError] [e] of the client ends
    the command with the exception of [cli_utils.error(str(e))]; any other
    exception passes through. *)
Theorem delete_api_key_outcome {Store : Type}
    (client_delete : Store -> string -> result Store)
    (str_exn : exn -> string) (error : string -> exn) (st : Store)
    (name_or_id : string) (yes answer : bool) :
  cli.delete_api_key client_delete str_exn error answer st name_or_id yes
  = if yes || answer then
      match client_delete st name_or_id with
      | Ok st' =>
          Ok (st',
              (if yes then []
               else [cli.Confirmation (cli.delete_prompt name_or_id) true])
              ++ [cli.Line (cli.deleted_message name_or_id)])%list
      | Raise (KeyError a) => Raise (error (str_exn (KeyError a)))
      | Raise other => Raise other
      end
    else
      Ok (st, [cli.Confirmation (cli.delete_prompt name_or_id) false;
               cli.Line "API key deletion canceled."]).
Proof.
  unfold cli.delete_api_key. destruct yes, answer; reflexivity.
Qed.

(** A declined confirmation gives the same result with any two clients. *)
Lemma delete_declined_ignores_client {Store : Type}
    (client1 client2 : Store -> string -> result Store)
    (str_exn : exn -> string) (error : string -> exn) (st : Store)
    (name_or_id : string) :
  cli.delete_api_key client1 str_exn error false st name_or_id false
  = cli.delete_api_key client2 str_exn error false st name_or_id false.
Proof. reflexivity. Qed.
